(** * Roster automator: the normalizer and the roster generator of [app.py]

    A shallow embedding of [clean_employee_data] and [generate_roster]
    together with the parts of pandas and of [datetime.date] they run on.

    - A pandas [DataFrame] is a list of column labels and a list of rows;
      its index is the [RangeIndex] [0 .. n-1], which is what
      [reset_index(drop=True)] leaves behind, so a row label is a position.
    - A cell is a string, an integer or [NaN]; [pd.read_csv] and
      [pd.read_excel] deliver an empty field as [NaN], and (pandas 3) a
      column of text as a string column, so that a row of text columns is
      a pandas string array and any other row a numpy array.
    - Python exceptions and the [return None] of the normalizer are results
      of an error monad. *)

From Stdlib Require Import ZArith List String Ascii Bool Lia Arith.
From Stdlib Require Import DecimalString.
Import ListNotations.

#[local] Open Scope string_scope.
#[local] Open Scope Z_scope.

(* ================================================================== *)
(** ** Python results *)

Inductive exn : Type :=
| IndexError      (* df.iloc[0] on a frame without rows *)
| ValueError      (* df.columns = labels of the wrong length *)
| KeyError        (* a label that is not in the columns *)
| OverflowError.  (* date + timedelta outside date.min .. date.max *)

Inductive py (A : Type) : Type :=
| Ret (a : A)
| Raise (e : exn).

Arguments Ret {A} a.
Arguments Raise {A} e.

Definition bind {A B : Type} (m : py A) (k : A -> py B) : py B :=
  match m with
  | Ret a => k a
  | Raise e => Raise e
  end.

Notation "x <- m ;; k" := (bind m (fun x => k))
  (at level 61, m at next level, right associativity).

Fixpoint mapM {A B : Type} (f : A -> py B) (l : list A) : py (list B) :=
  match l with
  | [] => Ret []
  | x :: l' => y <- f x ;; ys <- mapM f l' ;; Ret (y :: ys)
  end.

(* ================================================================== *)
(** ** Python strings *)

Module PyStr.

(** [needle in hay] for two [str]. *)
Fixpoint contains (needle hay : string) : bool :=
  String.prefix needle hay ||
  match hay with
  | EmptyString => false
  | String _ hay' => contains needle hay'
  end.

(** [str.isspace] on one character with a code point below 256. *)
Definition is_space (c : ascii) : bool :=
  let n := nat_of_ascii c in
  ((9 <=? n) && (n <=? 13) || (28 <=? n) && (n <=? 32)
   || (n =? 133) || (n =? 160))%nat.

Fixpoint lstrip (s : string) : string :=
  match s with
  | String c s' => if is_space c then lstrip s' else s
  | EmptyString => EmptyString
  end.

Fixpoint rev (s : string) : string :=
  match s with
  | EmptyString => EmptyString
  | String c s' => rev s' ++ String c EmptyString
  end.

Definition rstrip (s : string) : string := rev (lstrip (rev s)).

(** [s.strip()] *)
Definition strip (s : string) : string := rstrip (lstrip s).

(** [s.startswith(p)] *)
Definition startswith (s p : string) : bool := String.prefix p s.

(** [s in l] for a list of [str]. *)
Definition in_list (s : string) (l : list string) : bool :=
  existsb (String.eqb s) l.

(** [str(z)] for an [int]. *)
Definition of_Z (z : Z) : string := NilZero.string_of_int (Z.to_int z).

(** [sep.join(l)] *)
Fixpoint join_sep (sep : string) (l : list string) : string :=
  match l with
  | [] => ""
  | [s] => s
  | s :: l' => s ++ sep ++ join_sep sep l'
  end.

End PyStr.

(* ================================================================== *)
(** ** [datetime.date]

    The proleptic Gregorian calendar of CPython's [datetime]: a date is a
    year, a month and a day; [date + timedelta(days=n)] goes through the
    ordinal of the date and raises [OverflowError] outside
    [0001-01-01 .. 9999-12-31]. *)

Module Date.

Record date : Type := mkDate { year : Z; month : Z; day : Z }.

Definition is_leap (y : Z) : bool :=
  (y mod 4 =? 0) && (negb (y mod 100 =? 0) || (y mod 400 =? 0)).

Definition DAYS_IN_MONTH : list Z :=
  [-1; 31; 28; 31; 30; 31; 30; 31; 31; 30; 31; 30; 31].

Definition DAYS_BEFORE_MONTH : list Z :=
  [-1; 0; 31; 59; 90; 120; 151; 181; 212; 243; 273; 304; 334].

Definition tbl (t : list Z) (i : Z) : Z := nth (Z.to_nat i) t 0.

Definition days_in_month (y m : Z) : Z :=
  if (m =? 2) && is_leap y then 29 else tbl DAYS_IN_MONTH m.

Definition days_before_year (y : Z) : Z :=
  let y := y - 1 in y * 365 + y / 4 - y / 100 + y / 400.

Definition days_before_month (y m : Z) : Z :=
  tbl DAYS_BEFORE_MONTH m + (if (2 <? m) && is_leap y then 1 else 0).

Definition ymd2ord (y m d : Z) : Z :=
  days_before_year y + days_before_month y m + d.

Definition DI400Y : Z := 146097.
Definition DI100Y : Z := 36524.
Definition DI4Y : Z := 1461.
Definition MAXORDINAL : Z := 3652059.

Definition ord2ymd (n : Z) : date :=
  let n := n - 1 in
  let n400 := n / DI400Y in let n := n mod DI400Y in
  let y := n400 * 400 + 1 in
  let n100 := n / DI100Y in let n := n mod DI100Y in
  let n4 := n / DI4Y in let n := n mod DI4Y in
  let n1 := n / 365 in let n := n mod 365 in
  let y := y + n100 * 100 + n4 * 4 + n1 in
  if (n1 =? 4) || (n100 =? 4) then mkDate (y - 1) 12 31
  else
    let leapyear := (n1 =? 3) && (negb (n4 =? 24) || (n100 =? 3)) in
    let m := Z.shiftr (n + 50) 5 in
    let preceding :=
      tbl DAYS_BEFORE_MONTH m + (if (2 <? m) && leapyear then 1 else 0) in
    if n <? preceding then
      let m := m - 1 in
      let preceding :=
        preceding
        - (tbl DAYS_IN_MONTH m + (if (m =? 2) && leapyear then 1 else 0)) in
      mkDate y m (n - preceding + 1)
    else mkDate y m (n - preceding + 1).

(** The check the constructor of [date] makes on its fields. *)
Definition valid (d : date) : bool :=
  (1 <=? year d) && (year d <=? 9999)
  && (1 <=? month d) && (month d <=? 12)
  && (1 <=? day d) && (day d <=? days_in_month (year d) (month d)).

Definition toordinal (d : date) : Z := ymd2ord (year d) (month d) (day d).

Definition fromordinal (n : Z) : date := ord2ymd n.

(** [d + timedelta(days=n)] *)
Definition add_days (d : date) (n : Z) : py date :=
  let o := toordinal d + n in
  if (0 <? o) && (o <=? MAXORDINAL) then Ret (fromordinal o)
  else Raise OverflowError.

(** [d.weekday()]: Monday is 0. *)
Definition weekday (d : date) : Z := (toordinal d + 6) mod 7.

Definition DAY_NAMES : list string :=
  ["Monday"; "Tuesday"; "Wednesday"; "Thursday"; "Friday"; "Saturday";
   "Sunday"].

Definition MONTH_ABBR : list string :=
  [""; "Jan"; "Feb"; "Mar"; "Apr"; "May"; "Jun"; "Jul"; "Aug"; "Sep";
   "Oct"; "Nov"; "Dec"].

Definition day_name_of (w : Z) : string := nth (Z.to_nat w) DAY_NAMES "".

(** [d.strftime('%A')], with the English names of the C locale. *)
Definition strftime_A (d : date) : string := day_name_of (weekday d).

Definition digit (k : Z) : ascii := ascii_of_nat (48 + Z.to_nat k).

(** [d.strftime('%d')]: the day of the month on two digits. *)
Definition strftime_d (d : date) : string :=
  String (digit (day d / 10)) (String (digit (day d mod 10)) EmptyString).

(** [d.strftime('%b')] *)
Definition strftime_b (d : date) : string :=
  nth (Z.to_nat (month d)) MONTH_ABBR "".

(** [d.strftime('%d-%b')] *)
Definition strftime_d_b (d : date) : string :=
  strftime_d d ++ "-" ++ strftime_b d.

End Date.

Import Date.

(* ================================================================== *)
(** ** pandas frames *)

(** A cell of a frame, and a column label: header repair promotes a row of
    cells to labels. *)
Inductive cell : Type :=
| CStr (s : string)
| CNum (z : Z)
| CNaN.

Definition cell_eqb (a b : cell) : bool :=
  match a, b with
  | CStr s, CStr t => String.eqb s t
  | CNum x, CNum y => x =? y
  | CNaN, CNaN => true
  | _, _ => false
  end.

(** [pd.isna] *)
Definition isna (c : cell) : bool :=
  match c with CNaN => true | _ => false end.

(** [str(c)] *)
Definition str (c : cell) : string :=
  match c with
  | CStr s => s
  | CNum z => PyStr.of_Z z
  | CNaN => "nan"
  end.

(** [repr(c)] *)
Definition repr (c : cell) : string :=
  match c with
  | CStr s => "'" ++ s ++ "'"
  | CNum z => PyStr.of_Z z
  | CNaN => "nan"
  end.

Record DataFrame : Type := mkDF {
  columns : list cell;
  rows : list (list cell)
}.

(** Every row has one cell per column. *)
Definition rectangular (df : DataFrame) : bool :=
  forallb (fun r => (List.length r =? List.length (columns df))%nat) (rows df).

(** [df.index] after [reset_index(drop=True)]. *)
Definition index (df : DataFrame) : list nat :=
  seq 0 (List.length (rows df)).

(** The cell of row [r] under the first column labelled [label]. *)
Fixpoint row_get (cols r : list cell) (label : cell) : option cell :=
  match cols, r with
  | c :: cols', x :: r' =>
      if cell_eqb c label then Some x else row_get cols' r' label
  | _, _ => None
  end.

(** Row [r] with [v] under every column labelled [label]. *)
Fixpoint row_set (cols r : list cell) (label v : cell) : list cell :=
  match cols, r with
  | c :: cols', x :: r' =>
      (if cell_eqb c label then v else x) :: row_set cols' r' label v
  | _, _ => r
  end.

Fixpoint update_nth {A : Type} (n : nat) (f : A -> A) (l : list A) : list A :=
  match l, n with
  | [], _ => []
  | x :: l', O => f x :: l'
  | x :: l', S n' => x :: update_nth n' f l'
  end.

(** [df.at[idx, label]] *)
Definition at_get (df : DataFrame) (idx : nat) (label : cell) : option cell :=
  match nth_error (rows df) idx with
  | Some r => row_get (columns df) r label
  | None => None
  end.

(** [label in df.columns] *)
Definition has_column (df : DataFrame) (label : cell) : bool :=
  existsb (cell_eqb label) (columns df).

(** [df[label] = v] for a scalar [v]: an existing column is overwritten in
    place, a new one is appended. *)
Definition setitem (df : DataFrame) (label v : cell) : DataFrame :=
  if has_column df label
  then mkDF (columns df)
            (map (fun r => row_set (columns df) r label v) (rows df))
  else mkDF (columns df ++ [label])%list
            (map (fun r => (r ++ [v])%list) (rows df)).

(** [df.at[idx, label] = v] for an existing row and column. *)
Definition at_set (df : DataFrame) (idx : nat) (label v : cell) : DataFrame :=
  mkDF (columns df)
       (update_nth idx (fun r => row_set (columns df) r label v) (rows df)).

(* ================================================================== *)
(** ** [generate_roster] *)

(** [range(n)] *)
Definition range (n : Z) : list Z := map Z.of_nat (seq 0 (Z.to_nat n)).

(** The value the body of the inner loop stores for row [idx] on [date]. *)
Definition shift_label (idx : Z) (date : date) : string :=
  let day_name := strftime_A date in
  let day_of_month := day date in
  let is_even_row := idx mod 2 =? 0 in
  if is_even_row then
    if PyStr.in_list day_name ["Saturday"; "Sunday"] then "WO"
    else if day_of_month mod 2 =? 0 then "Day" else "Night"
  else
    if PyStr.in_list day_name ["Tuesday"; "Wednesday"] then "WO"
    else if day_of_month mod 2 =? 0 then "Day" else "Night".

(** [f"{day_name[:3]} {date.strftime('%d-%b')}"] *)
Definition column_name (date : date) : string :=
  substring 0 3 (strftime_A date) ++ " " ++ strftime_d_b date.

(** [for idx in idxs: df.at[idx, name] = value(idx)] *)
Definition for_each_row (idxs : list nat) (name : cell) (value : nat -> cell)
    (df : DataFrame) : DataFrame :=
  fold_left (fun df idx => at_set df idx name (value idx)) idxs df.

(** The body of [for date in date_range]. *)
Definition fill_day (roster_df : DataFrame) (date : date) : DataFrame :=
  let name := CStr (column_name date) in
  let roster_df := setitem roster_df name (CStr "") in
  for_each_row (index roster_df) name
    (fun idx => CStr (shift_label (Z.of_nat idx) date)) roster_df.

Definition generate_roster (employee_df : DataFrame) (start_date : date)
    (num_days : Z) : py DataFrame :=
  let roster_df := employee_df in
  date_range <- mapM (fun i => add_days start_date i) (range num_days) ;;
  Ret (fold_left fill_day date_range roster_df).


(* ================================================================== *)
(** ** [clean_employee_data] *)

(** What [clean_employee_data] hands back: the cleaned frame, or [None]
    after [st.error(f"Missing required column: {col}")]. *)
Inductive cleaned : Type :=
| Cleaned (df_clean : DataFrame)
| MissingColumn (col : string).

(** [df.iloc[0]] *)
Definition iloc0 (df : DataFrame) : py (list cell) :=
  match rows df with
  | [] => Raise IndexError
  | r :: _ => Ret r
  end.

(** The dtype the reader infers for a column: text when every cell is a
    string or missing and some cell is a string. *)
Definition text_column (cells : list cell) : bool :=
  forallb (fun c => match c with CNum _ => false | _ => true end) cells
  && existsb (fun c => match c with CStr _ => true | _ => false end) cells.

Definition column_cells (df : DataFrame) (j : nat) : list cell :=
  map (fun r => nth j r CNaN) (rows df).

(** Whether [df.iloc[0].values] is a pandas string array: it is when every
    column of the frame is a text column; with a numeric or a mixed column
    among them the row is a numpy array. *)
Definition string_row (df : DataFrame) : bool :=
  forallb (fun j => text_column (column_cells df j))
          (seq 0 (List.length (columns df))).

(** [str(values)] for the array of one row, as far as a search in it goes:
    the [repr] of the elements that are printed, in their order, between
    brackets. A pandas string array prints its elements separated by a
    comma and, beyond a hundred of them, only the first and the last ten;
    a numpy array prints them separated by a space and, beyond a thousand,
    only the first and the last three. The padding and the line breaks
    between elements, and the class and length lines around a pandas
    array, are left out. *)
Definition str_values (string_array : bool) (values : list cell) : string :=
  let n := List.length values in
  if string_array then
    if (100 <? n)%nat then
      "[" ++ PyStr.join_sep ", "
               (map repr (firstn 10 values) ++ ["..."]
                ++ map repr (skipn (n - 10) values))%list ++ "]"
    else "[" ++ PyStr.join_sep ", " (map repr values) ++ "]"
  else
    if (1000 <? n)%nat then
      "[" ++ PyStr.join_sep " "
               (map repr (firstn 3 values) ++ ["..."]
                ++ map repr (skipn (n - 3) values))%list ++ "]"
    else "[" ++ PyStr.join_sep " " (map repr values) ++ "]".

(** [df.columns = labels] *)
Definition set_columns (df : DataFrame) (labels : list cell) : py DataFrame :=
  if (List.length labels =? List.length (columns df))%nat
  then Ret (mkDF labels (rows df))
  else Raise ValueError.

(** The test of line 87 on the first row. *)
Definition first_row_is_header (string_array : bool) (values : list cell)
    : bool :=
  existsb (cell_eqb (CStr "Employee ID")) values
  || PyStr.contains "Employee ID" (str_values string_array values).

(** Lines 87-91. *)
Definition header_repair (df : DataFrame) : py DataFrame :=
  values <- iloc0 df ;;
  if first_row_is_header (string_row df) values then
    let new_columns := values in
    let df := mkDF (columns df) (tl (rows df)) in
    set_columns df new_columns
  else Ret df.

Definition KNOWN : list string :=
  ["Employee ID"; "NAME"; "Department"; "User ID"; "Status"; "WINS"].

(** The two tests of lines 96-99 on one label. *)
Definition keep_column (col : cell) : bool :=
  let col_str := PyStr.strip (str col) in
  negb (PyStr.in_list col_str ["2"; "nan"; "Unnamed"])
  && negb (PyStr.startswith col_str "Unnamed:")
  && PyStr.in_list col_str KNOWN.

(** The positions of the columns labelled [label], counted from [from]. *)
Fixpoint positions (label : cell) (cols : list cell) (from : nat) : list nat :=
  match cols with
  | [] => []
  | c :: cols' =>
      if cell_eqb c label then from :: positions label cols' (S from)
      else positions label cols' (S from)
  end.

(** The positions [df[keys]] takes: for every key all the columns that
    carry it, [KeyError] for a key that no column carries. *)
Definition get_indexer (cols keys : list cell) : py (list nat) :=
  pss <- mapM (fun k => match positions k cols 0 with
                        | [] => Raise KeyError
                        | ps => Ret ps
                        end) keys ;;
  Ret (List.concat pss).

Definition take (ps : list nat) (r : list cell) : list cell :=
  map (fun p => nth p r CNaN) ps.

(** [df[keys]] *)
Definition getitem (df : DataFrame) (keys : list cell) : py DataFrame :=
  ps <- get_indexer (columns df) keys ;;
  Ret (mkDF (take ps (columns df)) (map (take ps) (rows df))).

(** [df.iloc[:, :3]] *)
Definition iloc_first3 (df : DataFrame) : DataFrame :=
  mkDF (firstn 3 (columns df)) (map (firstn 3) (rows df)).

(** [df.dropna(subset=subset, how='all')] *)
Definition dropna_all (df : DataFrame) (subset : list cell) : py DataFrame :=
  ps <- get_indexer (columns df) subset ;;
  Ret (mkDF (columns df)
            (filter (fun r => negb (forallb isna (take ps r))) (rows df))).

Definition is_nil {A : Type} (l : list A) : bool :=
  match l with [] => true | _ => false end.

Definition SIX_LABELS : list cell :=
  [CStr "Employee ID"; CStr "User ID"; CStr "NAME"; CStr "Status";
   CStr "Department"; CStr "WINS"].

Definition THREE_LABELS : list cell :=
  [CStr "Employee ID"; CStr "NAME"; CStr "Department"].

(** Lines 93-115: the frame [df_clean] of the kept columns. *)
Definition project_columns (df : DataFrame) : py DataFrame :=
  let columns_to_keep := filter keep_column (columns df) in
  st <- (if is_nil columns_to_keep then
           if (3 <=? List.length (columns df))%nat then
             df' <- set_columns df (SIX_LABELS ++ skipn 6 (columns df))%list ;;
             Ret (df', THREE_LABELS)
           else Ret (df, columns_to_keep)
         else Ret (df, columns_to_keep)) ;;
  let '(df, columns_to_keep) := st in
  if negb (is_nil columns_to_keep) then getitem df columns_to_keep
  else set_columns (iloc_first3 df) THREE_LABELS.

(** Lines 117-134. *)
Definition finish (df_clean : DataFrame) : py cleaned :=
  if negb (has_column df_clean (CStr "Employee ID")) then
    Ret (MissingColumn "Employee ID")
  else if negb (has_column df_clean (CStr "NAME")) then
    Ret (MissingColumn "NAME")
  else
    let df_clean :=
      if negb (has_column df_clean (CStr "Department"))
      then setitem df_clean (CStr "Department") (CStr "Inbound")
      else df_clean in
    df_clean <- dropna_all df_clean [CStr "Employee ID"; CStr "NAME"] ;;
    Ret (Cleaned df_clean).

Definition clean_employee_data (df : DataFrame) : py cleaned :=
  df <- header_repair df ;;
  df_clean <- project_columns df ;;
  finish df_clean.


(* ================================================================== *)
(** ** The vocabulary of the specification *)

(** The three cell values of the grid, under the names the specification
    gives them. *)
Definition WORK_DAY : string := "Day".
Definition WORK_NIGHT : string := "Night".
Definition WEEK_OFF : string := "WO".

(** The week-off rule in the specification's words: Saturday and Sunday
    for an even row, Tuesday and Wednesday for an odd one. *)
Definition week_off_day (idx : Z) (date : date) : Prop :=
  (idx mod 2 = 0
   /\ (strftime_A date = "Saturday" \/ strftime_A date = "Sunday"))
  \/ (idx mod 2 <> 0
      /\ (strftime_A date = "Tuesday" \/ strftime_A date = "Wednesday")).

(** Every day of the horizon is a date of the calendar: the horizon is
    empty or its last day is not after 9999-12-31. *)
Definition in_calendar (start_date : date) (num_days : Z) : bool :=
  (num_days <=? 0) || (toordinal start_date + num_days - 1 <=? MAXORDINAL).

(** The cells of row [r] under all the columns labelled [label]. *)
Fixpoint cells_under (cols r : list cell) (label : cell) : list cell :=
  match cols, r with
  | c :: cols', x :: r' =>
      if cell_eqb c label then x :: cells_under cols' r' label
      else cells_under cols' r' label
  | _, _ => []
  end.

(** A row whose Employee ID and NAME are both missing. *)
Definition both_missing (cols r : list cell) : bool :=
  forallb isna (cells_under cols r (CStr "Employee ID"))
  && forallb isna (cells_under cols r (CStr "NAME")).

(** A record whose Employee ID and NAME are both there. *)
Definition complete_record (cols r : list cell) : bool :=
  match row_get cols r (CStr "Employee ID"), row_get cols r (CStr "NAME") with
  | Some a, Some b => negb (isna a) && negb (isna b)
  | _, _ => false
  end.

(** The working table of lines 124-126: [df_clean] with its Department. *)
Definition with_department (df_clean : DataFrame) : DataFrame :=
  if negb (has_column df_clean (CStr "Department"))
  then setitem df_clean (CStr "Department") (CStr "Inbound")
  else df_clean.

(** The scenario of the specification. *)
Definition alice_bob : DataFrame :=
  mkDF [CStr "Employee ID"; CStr "NAME"; CStr "Department"]
       [[CStr "E1"; CStr "Alice"; CStr "Inbound"];
        [CStr "E2"; CStr "Bob"; CStr "Inbound"]].

(** A table with a name left empty. *)
Definition nameless_table : DataFrame :=
  mkDF [CStr "Employee ID"; CStr "NAME"]
       [[CStr "E1"; CNaN]; [CStr "E2"; CStr "Bob"]].

(** A table of six columns none of which carries a known label. *)
Definition six_unlabelled : DataFrame :=
  mkDF [CStr "a"; CStr "b"; CStr "c"; CStr "d"; CStr "e"; CStr "f"]
       [[CStr "E1"; CStr "u1"; CStr "Alice"; CStr "on"; CStr "Ops"; CNum 4]].

(** A table of three columns none of which carries a known label. *)
Definition three_unlabelled : DataFrame :=
  mkDF [CStr "a"; CStr "b"; CStr "c"]
       [[CStr "E1"; CStr "Alice"; CStr "Ops"]].

(** A table with a banner row above the real header. *)
Definition banner_table : DataFrame :=
  mkDF [CStr "Unnamed: 0"; CStr "Unnamed: 1"]
       [[CStr "Employee ID"; CStr "NAME"];
        [CStr "E1"; CStr "Alice"];
        [CNaN; CNaN];
        [CNaN; CStr "Bob"]].

(** A table with a title row above a header whose first label is longer
    than the marker. *)
Definition titled_table : DataFrame :=
  mkDF [CStr "Unnamed: 0"; CStr "Unnamed: 1"; CStr "Unnamed: 2"]
       [[CStr "Report"; CStr "Employee ID No."; CStr "NAME"];
        [CStr "x"; CStr "E1"; CStr "Alice"]].

(** A row of 101 cells: fifty times [c], a string that holds the marker,
    fifty times [c]. *)
Definition wide_row (c : cell) : list cell :=
  (repeat c 50 ++ [CStr "the Employee ID column"] ++ repeat c 50)%list.

(** A table of 101 unlabelled columns: a first row of strings with the
    marker in the middle, and a second row of [c]. *)
Definition wide_table (c : cell) : DataFrame :=
  mkDF (repeat (CStr "col") 101) [wide_row (CStr "v"); wide_row c].

(** The reading of the positional fallback as "the first three columns are
    Employee ID, NAME, Department": the records are the first three cells
    of every row. *)
Definition first_three_fallback (df : DataFrame) : Prop :=
  exists out,
    clean_employee_data df = Ret (Cleaned out)
    /\ columns out = THREE_LABELS
    /\ forall r, In r (rows out) -> exists r0, In r0 (rows df) /\ r = firstn 3 r0.

(* ================================================================== *)
(** ** [style_excel]: the fill of a cell and the width of a column *)

Definition day_fill : string := "E7E6E6".
Definition night_fill : string := "FFF2CC".
Definition wo_fill : string := "FFD966".

(** Lines 224-229: the fill a data cell gets from its value, if any. *)
Definition cell_fill (value : cell) : option string :=
  if cell_eqb value (CStr "Day") then Some day_fill
  else if cell_eqb value (CStr "Night") then Some night_fill
  else if cell_eqb value (CStr "WO") then Some wo_fill
  else None.

(** Lines 233-240 over the texts [str(cell.value)] of one column. *)
Definition max_length (texts : list string) : Z :=
  fold_left
    (fun max_length text =>
       if max_length <? Z.of_nat (String.length text)
       then Z.of_nat (String.length text) else max_length)
    texts 0.

(** Line 241. *)
Definition adjusted_width (texts : list string) : Z :=
  Z.min (max_length texts + 2) 20.

(* ================================================================== *)
(** ** The default start date and the main logic *)

(** [d.replace(day=day)] *)
Definition replace_day (d : date) (day : Z) : py date :=
  let d' := mkDate (year d) (month d) day in
  if valid d' then Ret d' else Raise ValueError.

(** Lines 58-59, from the date of [datetime.now()]. *)
Definition default_date (now : date) : py date :=
  default_date <- (d <- replace_day now 1 ;; add_days d 32) ;;
  replace_day default_date 1.

(** What the page shows for an uploaded table. *)
Inductive page : Type :=
| ShowRoster (df_clean roster_df : DataFrame)
| CouldNotProcess
| ErrorProcessing (e : exn).

(** Lines 250-351 without the reading of the file and the writing of the
    workbook: clean, generate thirty days, and the two error messages. *)
Definition process (df_raw : DataFrame) (start_date : date) : page :=
  match clean_employee_data df_raw with
  | Raise e => ErrorProcessing e
  | Ret (MissingColumn _) => CouldNotProcess
  | Ret (Cleaned df_clean) =>
      if (0 <? List.length (rows df_clean))%nat then
        match generate_roster df_clean start_date 30 with
        | Raise e => ErrorProcessing e
        | Ret roster_df => ShowRoster df_clean roster_df
        end
      else CouldNotProcess
  end.

(* ================================================================== *)
(** ** Reading a roster *)

(** The cell of row [idx] on the day [start_date + i]. *)
Definition roster_cell (roster_df : DataFrame) (start_date : date) (idx : nat)
    (i : Z) : option cell :=
  at_get roster_df idx
         (CStr (column_name (fromordinal (toordinal start_date + i)))).

Definition is_week_off (c : option cell) : bool :=
  match c with
  | Some (CStr s) => String.eqb s WEEK_OFF
  | _ => false
  end.

(** The week-off days of row [idx] among the seven days from offset [i]. *)
Definition week_offs_from (roster_df : DataFrame) (start_date : date)
    (idx : nat) (i : Z) : list Z :=
  filter (fun j => is_week_off (roster_cell roster_df start_date idx j))
         (map (fun k => i + k) (range 7)).

(** The month and the day of the month that [ord2ymd] computes from the
    day of the year [n] (from 0) and the leap flag. *)
Definition month_day (n : Z) (leapyear : bool) : Z * Z :=
  let m := Z.shiftr (n + 50) 5 in
  let preceding :=
    tbl DAYS_BEFORE_MONTH m + (if (2 <? m) && leapyear then 1 else 0) in
  if n <? preceding then
    let m := m - 1 in
    let preceding :=
      preceding
      - (tbl DAYS_IN_MONTH m + (if (m =? 2) && leapyear then 1 else 0)) in
    (m, n - preceding + 1)
  else (m, n - preceding + 1).

(** The dates of a horizon: [start_date + timedelta(days=i)] for [i] in
    [range(num_days)]. *)
Definition horizon (start_date : date) (num_days : Z) : list date :=
  map (fun i => fromordinal (toordinal start_date + i)) (range num_days).

(** The first day of the month after that of [d]. *)
Definition first_of_next_month (d : date) : date :=
  if month d =? 12 then mkDate (year d + 1) 1 1
  else mkDate (year d) (month d + 1) 1.

(* ================================================================== *)
(** ** Rows and frames: lookup after update *)

Lemma cell_eqb_eq (a b : cell) : cell_eqb a b = true <-> a = b.
Proof.
  destruct a, b; simpl; split; intro H;
    try discriminate; try reflexivity.
  - apply String.eqb_eq in H. now subst.
  - injection H as ->. apply String.eqb_refl.
  - apply Z.eqb_eq in H. now subst.
  - injection H as ->. apply Z.eqb_refl.
Qed.

Lemma cell_eqb_refl (a : cell) : cell_eqb a a = true.
Proof. now apply cell_eqb_eq. Qed.

Lemma cell_eqb_neq (a b : cell) : cell_eqb a b = false <-> a <> b.
Proof.
  split.
  - intros H E. apply cell_eqb_eq in E. congruence.
  - intro H. destruct (cell_eqb a b) eqn:E; [|reflexivity].
    apply cell_eqb_eq in E. contradiction.
Qed.

Lemma cell_eqb_sym (a b : cell) : cell_eqb a b = cell_eqb b a.
Proof.
  destruct (cell_eqb a b) eqn:E; symmetry.
  - apply cell_eqb_eq in E. subst. apply cell_eqb_refl.
  - apply cell_eqb_neq. apply cell_eqb_neq in E. congruence.
Qed.

Section RowUpdate.

Variables (label v : cell).

Lemma row_set_length (cols r : list cell) :
  List.length (row_set cols r label v) = List.length r.
Proof.
  revert r. induction cols as [|c cols IH]; intros [|x r]; simpl; auto.
Qed.

Lemma row_get_row_set_same (cols r : list cell) :
  row_get cols (row_set cols r label v) label
  = option_map (fun _ => v) (row_get cols r label).
Proof.
  revert r. induction cols as [|c cols IH]; intros [|x r]; simpl; auto.
  destruct (cell_eqb c label); simpl; auto.
Qed.

Lemma row_get_row_set_other (cols r : list cell) (label' : cell) :
  cell_eqb label label' = false ->
  row_get cols (row_set cols r label v) label' = row_get cols r label'.
Proof.
  intro Hne. revert r.
  induction cols as [|c cols IH]; intros [|x r]; simpl; auto.
  destruct (cell_eqb c label') eqn:E'.
  - destruct (cell_eqb c label) eqn:E; [|reflexivity].
    apply cell_eqb_eq in E, E'. subst.
    rewrite cell_eqb_refl in Hne. discriminate.
  - apply IH.
Qed.

Lemma row_get_has (cols r : list cell) :
  List.length r = List.length cols ->
  existsb (cell_eqb label) cols = true ->
  row_get cols r label <> None.
Proof.
  revert r. induction cols as [|c cols IH]; intros [|x r]; simpl;
    try discriminate.
  intros Hlen Hex. injection Hlen as Hlen.
  rewrite (cell_eqb_sym c label).
  destruct (cell_eqb label c); [discriminate|].
  now apply IH.
Qed.

Lemma row_get_snoc (cols r : list cell) (label' : cell) :
  List.length r = List.length cols ->
  row_get (cols ++ [label]) (r ++ [v]) label'
  = match row_get cols r label' with
    | Some x => Some x
    | None => if cell_eqb label label' then Some v else None
    end.
Proof.
  revert r. induction cols as [|c cols IH]; intros [|x r]; simpl;
    try discriminate.
  - reflexivity.
  - intro Hlen. injection Hlen as Hlen.
    destruct (cell_eqb c label'); [reflexivity|]. now apply IH.
Qed.

Lemma row_get_absent (cols r : list cell) :
  existsb (cell_eqb label) cols = false -> row_get cols r label = None.
Proof.
  revert r. induction cols as [|c cols IH]; intros [|x r]; simpl; auto.
  rewrite (cell_eqb_sym c label).
  destruct (cell_eqb label c); [discriminate|]. apply IH.
Qed.

End RowUpdate.

Lemma nth_error_update_nth {A : Type} (f : A -> A) (l : list A) (i j : nat) :
  nth_error (update_nth j f l) i
  = if (i =? j)%nat then option_map f (nth_error l i) else nth_error l i.
Proof.
  revert i j. induction l as [|x l IH]; intros i j.
  - destruct i, j; simpl; try reflexivity. now destruct (i =? j)%nat.
  - destruct i, j; simpl; auto.
Qed.

Lemma update_nth_length {A : Type} (f : A -> A) (l : list A) (j : nat) :
  List.length (update_nth j f l) = List.length l.
Proof.
  revert j. induction l as [|x l IH]; intros [|j]; simpl; auto.
Qed.

Lemma rectangular_Forall (df : DataFrame) :
  rectangular df = true
  <-> Forall (fun r => List.length r = List.length (columns df)) (rows df).
Proof.
  unfold rectangular. rewrite forallb_forall, Forall_forall.
  split; intros H r Hr; specialize (H r Hr); now apply Nat.eqb_eq.
Qed.

Lemma forallb_update_nth {A : Type} (P : A -> bool) (f : A -> A) (l : list A)
    (j : nat) :
  (forall x, P x = true -> P (f x) = true) ->
  forallb P l = true -> forallb P (update_nth j f l) = true.
Proof.
  intro Hf. revert j. induction l as [|x l IH]; intros [|j]; simpl; auto;
    rewrite !andb_true_iff; intros [Hx Hl]; auto.
Qed.

Section FrameUpdate.

Variables (label v : cell).

Lemma at_get_at_set_same (df : DataFrame) (i j : nat) :
  at_get (at_set df j label v) i label
  = if (i =? j)%nat then option_map (fun _ => v) (at_get df i label)
    else at_get df i label.
Proof.
  unfold at_get, at_set; simpl. rewrite nth_error_update_nth.
  destruct (i =? j)%nat; destruct (nth_error (rows df) i); simpl; auto.
  apply row_get_row_set_same.
Qed.

Lemma at_get_at_set_other (df : DataFrame) (i j : nat) (label' : cell) :
  cell_eqb label label' = false ->
  at_get (at_set df j label v) i label' = at_get df i label'.
Proof.
  intro Hne. unfold at_get, at_set; simpl. rewrite nth_error_update_nth.
  destruct (i =? j)%nat; destruct (nth_error (rows df) i); simpl; auto.
  now apply row_get_row_set_other.
Qed.

Lemma at_set_rectangular (df : DataFrame) (j : nat) :
  rectangular df = true -> rectangular (at_set df j label v) = true.
Proof.
  unfold rectangular, at_set; simpl. apply forallb_update_nth.
  intros r Hr. now rewrite row_set_length.
Qed.

Lemma setitem_nrows (df : DataFrame) :
  List.length (rows (setitem df label v)) = List.length (rows df).
Proof.
  unfold setitem. destruct (has_column df label); simpl;
    apply length_map.
Qed.

Lemma setitem_rectangular (df : DataFrame) :
  rectangular df = true -> rectangular (setitem df label v) = true.
Proof.
  unfold rectangular, setitem. rewrite !forallb_forall. intro H.
  destruct (has_column df label); simpl; intros r Hr;
    apply in_map_iff in Hr; destruct Hr as [r0 [<- Hr0]];
    specialize (H r0 Hr0); apply Nat.eqb_eq in H; apply Nat.eqb_eq.
  - now rewrite row_set_length.
  - rewrite !length_app. simpl. lia.
Qed.

Lemma at_get_setitem_same (df : DataFrame) (i : nat) :
  rectangular df = true ->
  (i < List.length (rows df))%nat ->
  at_get (setitem df label v) i label = Some v.
Proof.
  intros Hrect Hi.
  destruct (nth_error (rows df) i) as [r|] eqn:Hr;
    [|apply nth_error_None in Hr; lia].
  assert (Hlen : List.length r = List.length (columns df)).
  { apply rectangular_Forall in Hrect. rewrite Forall_forall in Hrect.
    apply Hrect. eapply nth_error_In; eauto. }
  unfold at_get, setitem, has_column.
  destruct (existsb (cell_eqb label) (columns df)) eqn:Hhas; simpl;
    rewrite nth_error_map, Hr; simpl.
  - rewrite row_get_row_set_same.
    destruct (row_get (columns df) r label) eqn:Hg; [reflexivity|].
    exfalso. revert Hg. now apply row_get_has.
  - rewrite row_get_snoc by assumption.
    now rewrite row_get_absent, cell_eqb_refl.
Qed.

Lemma at_get_setitem_other (df : DataFrame) (i : nat) (label' : cell) :
  rectangular df = true ->
  cell_eqb label label' = false ->
  at_get (setitem df label v) i label' = at_get df i label'.
Proof.
  intros Hrect Hne. unfold at_get, setitem.
  destruct (has_column df label); simpl; rewrite nth_error_map;
    destruct (nth_error (rows df) i) as [r|] eqn:Hr; simpl; auto.
  - now apply row_get_row_set_other.
  - assert (Hlen : List.length r = List.length (columns df)).
    { apply rectangular_Forall in Hrect. rewrite Forall_forall in Hrect.
      apply Hrect. eapply nth_error_In; eauto. }
    rewrite row_get_snoc by assumption. rewrite Hne.
    now destruct (row_get (columns df) r label').
Qed.

End FrameUpdate.

(** The inner loop of [generate_roster] over a list of row labels. *)
Section InnerLoop.

Variables (label : cell) (f : nat -> cell).

Lemma loop_nrows (idxs : list nat) (df : DataFrame) :
  List.length (rows (for_each_row idxs label f df)) = List.length (rows df).
Proof.
  unfold for_each_row. revert df.
  induction idxs as [|j idxs IH]; intro df; simpl; auto.
  rewrite IH. unfold at_set; simpl. apply update_nth_length.
Qed.

Lemma loop_rectangular (idxs : list nat) (df : DataFrame) :
  rectangular df = true ->
  rectangular (for_each_row idxs label f df) = true.
Proof.
  unfold for_each_row. revert df.
  induction idxs as [|j idxs IH]; intros df H; simpl; auto.
  apply IH. now apply at_set_rectangular.
Qed.

Lemma loop_at_get_other (idxs : list nat) (df : DataFrame) (i : nat)
    (label' : cell) :
  cell_eqb label label' = false ->
  at_get (for_each_row idxs label f df) i label' = at_get df i label'.
Proof.
  intro Hne. unfold for_each_row. revert df.
  induction idxs as [|j idxs IH]; intro df; simpl; auto.
  rewrite IH. now apply at_get_at_set_other.
Qed.

Lemma loop_at_get_same (idxs : list nat) (df : DataFrame) (i : nat) :
  at_get (for_each_row idxs label f df) i label
  = if existsb (Nat.eqb i) idxs
    then option_map (fun _ => f i) (at_get df i label)
    else at_get df i label.
Proof.
  unfold for_each_row. revert df.
  induction idxs as [|j idxs IH]; intro df; simpl; auto.
  rewrite IH, at_get_at_set_same.
  destruct (i =? j)%nat eqn:E; simpl.
  - apply Nat.eqb_eq in E. subst j.
    destruct (existsb (Nat.eqb i) idxs), (at_get df i label); reflexivity.
  - reflexivity.
Qed.

End InnerLoop.

Lemma existsb_seq (i n : nat) :
  (i < n)%nat -> existsb (Nat.eqb i) (seq 0 n) = true.
Proof.
  intro H. apply existsb_exists. exists i. split.
  - apply in_seq. lia.
  - apply Nat.eqb_refl.
Qed.

(** One day of the outer loop. *)
Section FillDay.

Variables (df : DataFrame) (date : date).
Hypothesis Hrect : rectangular df = true.

Lemma fill_day_nrows :
  List.length (rows (fill_day df date)) = List.length (rows df).
Proof. unfold fill_day. now rewrite loop_nrows, setitem_nrows. Qed.

Lemma fill_day_rectangular : rectangular (fill_day df date) = true.
Proof.
  unfold fill_day. apply loop_rectangular. now apply setitem_rectangular.
Qed.

Lemma fill_day_at_get_same (idx : nat) :
  (idx < List.length (rows df))%nat ->
  at_get (fill_day df date) idx (CStr (column_name date))
  = Some (CStr (shift_label (Z.of_nat idx) date)).
Proof.
  intro Hidx. unfold fill_day.
  rewrite loop_at_get_same. unfold index. rewrite setitem_nrows, existsb_seq by assumption.
  now rewrite at_get_setitem_same.
Qed.

Lemma fill_day_at_get_other (idx : nat) (label' : cell) :
  label' <> CStr (column_name date) ->
  at_get (fill_day df date) idx label' = at_get df idx label'.
Proof.
  intro Hne. assert (cell_eqb (CStr (column_name date)) label' = false)
    by (apply cell_eqb_neq; congruence).
  unfold fill_day.
  rewrite loop_at_get_other by assumption.
  now apply at_get_setitem_other.
Qed.

End FillDay.

(* ================================================================== *)
(** ** Dates and column names *)

Lemma weekday_cases (d : date) :
  weekday d = 0 \/ weekday d = 1 \/ weekday d = 2 \/ weekday d = 3
  \/ weekday d = 4 \/ weekday d = 5 \/ weekday d = 6.
Proof.
  unfold weekday. pose proof (Z.mod_pos_bound (toordinal d + 6) 7). lia.
Qed.

Lemma digit_inj (a b : Z) :
  0 <= a < 10 -> 0 <= b < 10 -> digit a = digit b -> a = b.
Proof.
  intros Ha Hb H. apply (f_equal nat_of_ascii) in H. unfold digit in H.
  rewrite !nat_ascii_embedding in H by lia. lia.
Qed.

Lemma mod10_mod2 (a b : Z) : a mod 10 = b mod 10 -> a mod 2 = b mod 2.
Proof. intro H. Z.to_euclidean_division_equations. lia. Qed.

(** The column name fixes the weekday and the parity of the day of the
    month, the two things a cell of the column is computed from. *)
Lemma column_name_key (d d' : date) :
  column_name d = column_name d' ->
  weekday d = weekday d' /\ day d mod 2 = day d' mod 2.
Proof.
  unfold column_name, strftime_d_b, strftime_d, strftime_A. intro H.
  assert (K : weekday d = weekday d'
              /\ digit (day d mod 10) = digit (day d' mod 10)).
  { remember (digit (day d / 10)) as c1.
    remember (digit (day d' / 10)) as c1'.
    remember (digit (day d mod 10)) as c2.
    remember (digit (day d' mod 10)) as c2'.
    remember (strftime_b d) as m. remember (strftime_b d') as m'.
    destruct (weekday_cases d) as [E|[E|[E|[E|[E|[E|E]]]]]];
      destruct (weekday_cases d') as [E'|[E'|[E'|[E'|[E'|[E'|E']]]]]];
      rewrite E, E' in *; cbn in H;
      first [ discriminate H | injection H; intros; now split ]. }
  destruct K as [Kw Kd]. split; [assumption|].
  apply mod10_mod2. apply digit_inj; try assumption;
    apply Z.mod_pos_bound; lia.
Qed.

Lemma column_name_shift_label (idx : Z) (d d' : date) :
  column_name d = column_name d' -> shift_label idx d = shift_label idx d'.
Proof.
  intro H. apply column_name_key in H. destruct H as [Hw Hd].
  unfold shift_label, strftime_A. now rewrite Hw, Hd.
Qed.

(** The outer loop. *)
Lemma fill_days_nrows (dates : list date) (df : DataFrame) :
  rectangular df = true ->
  rectangular (fold_left fill_day dates df) = true
  /\ List.length (rows (fold_left fill_day dates df)) = List.length (rows df).
Proof.
  revert df. induction dates as [|d dates IH]; intros df H; simpl; auto.
  destruct (IH (fill_day df d)) as [H1 H2];
    [now apply fill_day_rectangular|].
  split; [assumption|]. now rewrite H2, fill_day_nrows.
Qed.

Lemma fill_days_at_get (dates : list date) (df : DataFrame) (d : date)
    (idx : nat) :
  rectangular df = true ->
  In d dates ->
  (idx < List.length (rows df))%nat ->
  at_get (fold_left fill_day dates df) idx (CStr (column_name d))
  = Some (CStr (shift_label (Z.of_nat idx) d)).
Proof.
  intros Hrect Hin Hidx. revert Hin.
  induction dates as [|d0 dates IH] using rev_ind; intro Hin.
  - destruct Hin.
  - rewrite fold_left_app. simpl.
    destruct (fill_days_nrows dates df Hrect) as [Hr Hn].
    destruct (string_dec (column_name d) (column_name d0)) as [E|NE].
    + rewrite E, fill_day_at_get_same by (congruence || lia).
      now rewrite (column_name_shift_label _ _ _ E).
    + rewrite fill_day_at_get_other by congruence.
      apply in_app_or in Hin. destruct Hin as [Hin|[->|[]]].
      * now apply IH.
      * contradiction.
Qed.

Lemma bind_Ret_inv {A B : Type} (m : py A) (k : A -> py B) (b : B) :
  bind m k = Ret b -> exists a, m = Ret a /\ k a = Ret b.
Proof. destruct m as [a|e]; simpl; [eauto|discriminate]. Qed.

Lemma mapM_ext_Ret {A B : Type} (f : A -> py B) (g : A -> B) (l : list A) :
  (forall x, In x l -> f x = Ret (g x)) -> mapM f l = Ret (map g l).
Proof.
  induction l as [|x l IH]; intro H; simpl; [reflexivity|].
  rewrite (H x) by now left. simpl.
  rewrite IH by (intros y Hy; apply H; now right). reflexivity.
Qed.

Lemma in_range (i n : Z) : In i (range n) <-> 0 <= i < n.
Proof.
  unfold range. rewrite in_map_iff. split.
  - intros [k [<- Hk]]. apply in_seq in Hk. lia.
  - intro H. exists (Z.to_nat i). split; [lia|]. apply in_seq. lia.
Qed.

Lemma range_nonpos (n : Z) : n <= 0 -> range n = [].
Proof.
  intro H. unfold range. now replace (Z.to_nat n) with 0%nat by lia.
Qed.

Lemma days_before_year_nonneg (y : Z) : 1 <= y -> 0 <= days_before_year y.
Proof.
  intro H. unfold days_before_year. cbv zeta.
  Z.to_euclidean_division_equations. lia.
Qed.

Lemma days_before_month_nonneg (y m : Z) :
  1 <= m <= 12 -> 0 <= days_before_month y m.
Proof.
  intro H. unfold days_before_month.
  assert (0 <= tbl DAYS_BEFORE_MONTH m).
  { assert (C : m = 1 \/ m = 2 \/ m = 3 \/ m = 4 \/ m = 5 \/ m = 6 \/ m = 7
                \/ m = 8 \/ m = 9 \/ m = 10 \/ m = 11 \/ m = 12) by lia.
    repeat (destruct C as [->|C]; [vm_compute; discriminate|]).
    subst. vm_compute. discriminate. }
  destruct ((2 <? m) && is_leap y); lia.
Qed.

Lemma toordinal_pos (d : date) : valid d = true -> 0 < toordinal d.
Proof.
  unfold valid. rewrite !andb_true_iff, !Z.leb_le. intro H.
  unfold toordinal, ymd2ord.
  pose proof (days_before_year_nonneg (year d)).
  pose proof (days_before_month_nonneg (year d) (month d)). lia.
Qed.

Lemma add_days_in_calendar (start_date : date) (num_days i : Z) :
  valid start_date = true ->
  in_calendar start_date num_days = true ->
  0 <= i < num_days ->
  add_days start_date i = Ret (fromordinal (toordinal start_date + i)).
Proof.
  intros Hv Hc Hi. apply toordinal_pos in Hv.
  unfold in_calendar in Hc. rewrite orb_true_iff, !Z.leb_le in Hc.
  unfold add_days. cbv zeta.
  replace (0 <? toordinal start_date + i) with true
    by (symmetry; apply Z.ltb_lt; lia).
  replace (toordinal start_date + i <=? MAXORDINAL) with true
    by (symmetry; apply Z.leb_le; lia).
  reflexivity.
Qed.

Lemma date_range_in_calendar (start_date : date) (num_days : Z) :
  valid start_date = true ->
  in_calendar start_date num_days = true ->
  mapM (fun i => add_days start_date i) (range num_days)
  = Ret (map (fun i => fromordinal (toordinal start_date + i))
             (range num_days)).
Proof.
  intros Hv Hc. apply mapM_ext_Ret. intros i Hi. apply in_range in Hi.
  now apply add_days_in_calendar with (num_days := num_days).
Qed.

(** The grid of a horizon inside the calendar: every cell of the horizon
    holds the label of its row and date. *)
Lemma generate_roster_cells (employee_df : DataFrame) (start_date : date)
    (num_days : Z) :
  valid start_date = true ->
  rectangular employee_df = true ->
  in_calendar start_date num_days = true ->
  exists roster,
    generate_roster employee_df start_date num_days = Ret roster
    /\ List.length (rows roster) = List.length (rows employee_df)
    /\ forall i idx,
         0 <= i < num_days ->
         (idx < List.length (rows employee_df))%nat ->
         exists date,
           add_days start_date i = Ret date
           /\ at_get roster idx (CStr (column_name date))
              = Some (CStr (shift_label (Z.of_nat idx) date)).
Proof.
  intros Hv Hrect Hc. unfold generate_roster.
  rewrite date_range_in_calendar by assumption. simpl.
  eexists. split; [reflexivity|]. split.
  - now apply fill_days_nrows.
  - intros i idx Hi Hidx. eexists. split.
    + now apply add_days_in_calendar with (num_days := num_days).
    + apply fill_days_at_get; try assumption.
      apply in_map_iff. exists i. split; [reflexivity|]. now apply in_range.
Qed.

Lemma shift_label_week_off (idx : Z) (d : date) :
  shift_label idx d = WEEK_OFF <-> week_off_day idx d.
Proof.
  unfold shift_label, week_off_day, WEEK_OFF, strftime_A.
  destruct (idx mod 2 =? 0) eqn:Ei;
    [apply Z.eqb_eq in Ei | apply Z.eqb_neq in Ei];
    destruct (weekday_cases d) as [E|[E|[E|[E|[E|[E|E]]]]]]; rewrite E;
    cbn; destruct (day d mod 2 =? 0);
    (split;
     [ intro H; first [ discriminate H | tauto ]
     | intros [[H1 [H2|H2]]|[H1 [H2|H2]]];
       first [ reflexivity | discriminate H2 | contradiction ] ]).
Qed.

Lemma shift_label_work (idx : Z) (d : date) :
  ~ week_off_day idx d ->
  shift_label idx d = if day d mod 2 =? 0 then WORK_DAY else WORK_NIGHT.
Proof.
  intro H. destruct (string_dec (shift_label idx d) WEEK_OFF) as [E|NE].
  - apply shift_label_week_off in E. contradiction.
  - revert NE. unfold shift_label, WEEK_OFF, WORK_DAY, WORK_NIGHT.
    destruct (idx mod 2 =? 0);
      destruct (PyStr.in_list (strftime_A d) _); congruence.
Qed.

Lemma fill_days_nrows_any (dates : list date) (df : DataFrame) :
  List.length (rows (fold_left fill_day dates df)) = List.length (rows df).
Proof.
  revert df. induction dates as [|d dates IH]; intro df; simpl; auto.
  rewrite IH. unfold fill_day. now rewrite loop_nrows, setitem_nrows.
Qed.

Lemma mapM_Ret_In {A B : Type} (f : A -> py B) (l : list A) (ys : list B) :
  mapM f l = Ret ys -> forall x, In x l -> exists y, f x = Ret y.
Proof.
  revert ys. induction l as [|a l IH]; intros ys H x Hx; [destruct Hx|].
  simpl in H. apply bind_Ret_inv in H. destruct H as [y [Hy H]].
  apply bind_Ret_inv in H. destruct H as [ys' [Hys _]].
  destruct Hx as [<-|Hx]; [eauto|]. now apply (IH ys').
Qed.

(** For a valid start date, [generate_roster] returns exactly on the
    horizons inside the calendar. *)
Lemma generate_roster_returns_iff (employee_df : DataFrame)
    (start_date : date) (num_days : Z) :
  valid start_date = true ->
  (exists roster, generate_roster employee_df start_date num_days = Ret roster)
  <-> in_calendar start_date num_days = true.
Proof.
  intro Hv. unfold generate_roster. split.
  - intros [roster H]. apply bind_Ret_inv in H. destruct H as [ds [Hds _]].
    destruct (in_calendar start_date num_days) eqn:Hc; [reflexivity|].
    unfold in_calendar in Hc. apply orb_false_iff in Hc.
    destruct Hc as [Hn Hmax]. apply Z.leb_gt in Hn, Hmax.
    destruct (mapM_Ret_In _ _ _ Hds (num_days - 1)) as [y Hy];
      [apply in_range; lia|].
    unfold add_days in Hy. cbv zeta in Hy.
    replace (toordinal start_date + (num_days - 1) <=? MAXORDINAL)
      with false in Hy by (symmetry; apply Z.leb_gt; lia).
    rewrite andb_false_r in Hy. discriminate.
  - intro Hc. rewrite date_range_in_calendar by assumption. simpl. eauto.
Qed.

(* ================================================================== *)
(** ** The roster generator *)

(** C1. The scenario of the specification: for Alice and Bob, from Friday
    2024-03-01 and over seven days, [generate_roster] returns the grid with
    the seven columns Fri 01-Mar .. Thu 07-Mar in which Alice (row 0) has
    Night, WO, WO, Day, Night, Day, Night and Bob (row 1) has Night, Day,
    Night, Day, WO, WO, Night. *)
Theorem generate_roster_alice_bob :
  generate_roster alice_bob (mkDate 2024 3 1) 7
  = Ret (mkDF
           [CStr "Employee ID"; CStr "NAME"; CStr "Department";
            CStr "Fri 01-Mar"; CStr "Sat 02-Mar"; CStr "Sun 03-Mar";
            CStr "Mon 04-Mar"; CStr "Tue 05-Mar"; CStr "Wed 06-Mar";
            CStr "Thu 07-Mar"]
           [[CStr "E1"; CStr "Alice"; CStr "Inbound";
             CStr WORK_NIGHT; CStr WEEK_OFF; CStr WEEK_OFF; CStr WORK_DAY;
             CStr WORK_NIGHT; CStr WORK_DAY; CStr WORK_NIGHT];
            [CStr "E2"; CStr "Bob"; CStr "Inbound";
             CStr WORK_NIGHT; CStr WORK_DAY; CStr WORK_NIGHT; CStr WORK_DAY;
             CStr WEEK_OFF; CStr WEEK_OFF; CStr WORK_NIGHT]]).
Proof. vm_compute. reflexivity. Qed.

(** C2. For every employee frame, start date and horizon inside the
    calendar, and for every row [idx] and day offset [i] of the horizon,
    the cell of row [idx] in the column of the date [start_date + i] is
    WEEK-OFF exactly when [idx] is even and the date is a Saturday or a
    Sunday, or [idx] is odd and the date is a Tuesday or a Wednesday. *)
Theorem week_off_by_row_parity (employee_df : DataFrame) (start_date : date)
    (num_days : Z) :
  valid start_date = true ->
  rectangular employee_df = true ->
  in_calendar start_date num_days = true ->
  exists roster,
    generate_roster employee_df start_date num_days = Ret roster
    /\ forall i idx,
         0 <= i < num_days ->
         (idx < List.length (rows employee_df))%nat ->
         exists date,
           add_days start_date i = Ret date
           /\ (at_get roster idx (CStr (column_name date))
               = Some (CStr WEEK_OFF)
               <-> week_off_day (Z.of_nat idx) date).
Proof.
  intros Hv Hrect Hc.
  destruct (generate_roster_cells employee_df start_date num_days Hv Hrect Hc)
    as [roster [Hgen [_ Hcells]]].
  exists roster. split; [assumption|]. intros i idx Hi Hidx.
  destruct (Hcells i idx Hi Hidx) as [date [Hdate Hcell]].
  exists date. split; [assumption|]. rewrite Hcell.
  rewrite <- shift_label_week_off. split.
  - intro H. now injection H.
  - intro H. now rewrite H.
Qed.

Lemma week_off_by_row_parity_witness :
  exists roster,
    generate_roster alice_bob (mkDate 2024 3 1) 7 = Ret roster
    /\ forall i idx,
         0 <= i < 7 ->
         (idx < List.length (rows alice_bob))%nat ->
         exists date,
           add_days (mkDate 2024 3 1) i = Ret date
           /\ (at_get roster idx (CStr (column_name date))
               = Some (CStr WEEK_OFF)
               <-> week_off_day (Z.of_nat idx) date).
Proof.
  apply (week_off_by_row_parity alice_bob (mkDate 2024 3 1) 7); reflexivity.
Defined.

(** C3. For every day of the horizon that is not a week-off day of the
    row, the cell is WORK-DAY when the day of the month of that date is even
    and WORK-NIGHT when it is odd; the date is [start_date + i] by calendar
    arithmetic, so the day of the month is that of the date's own month. *)
Theorem shift_by_day_of_month (employee_df : DataFrame) (start_date : date)
    (num_days : Z) :
  valid start_date = true ->
  rectangular employee_df = true ->
  in_calendar start_date num_days = true ->
  exists roster,
    generate_roster employee_df start_date num_days = Ret roster
    /\ forall i idx,
         0 <= i < num_days ->
         (idx < List.length (rows employee_df))%nat ->
         exists date,
           add_days start_date i = Ret date
           /\ date = fromordinal (toordinal start_date + i)
           /\ (~ week_off_day (Z.of_nat idx) date ->
               (day date mod 2 = 0 ->
                at_get roster idx (CStr (column_name date))
                = Some (CStr WORK_DAY))
               /\ (day date mod 2 <> 0 ->
                   at_get roster idx (CStr (column_name date))
                   = Some (CStr WORK_NIGHT))).
Proof.
  intros Hv Hrect Hc.
  destruct (generate_roster_cells employee_df start_date num_days Hv Hrect Hc)
    as [roster [Hgen [_ Hcells]]].
  exists roster. split; [assumption|]. intros i idx Hi Hidx.
  destruct (Hcells i idx Hi Hidx) as [date [Hdate Hcell]].
  exists date. split; [assumption|]. split.
  - rewrite (add_days_in_calendar start_date num_days i Hv Hc Hi) in Hdate.
    now injection Hdate.
  - intro Hwork. rewrite Hcell, (shift_label_work _ _ Hwork).
    split; intro Hp.
    + apply Z.eqb_eq in Hp. now rewrite Hp.
    + apply Z.eqb_neq in Hp. now rewrite Hp.
Qed.

Lemma shift_by_day_of_month_witness :
  exists roster,
    generate_roster alice_bob (mkDate 2024 1 30) 4 = Ret roster
    /\ forall i idx,
         0 <= i < 4 ->
         (idx < List.length (rows alice_bob))%nat ->
         exists date,
           add_days (mkDate 2024 1 30) i = Ret date
           /\ date = fromordinal (toordinal (mkDate 2024 1 30) + i)
           /\ (~ week_off_day (Z.of_nat idx) date ->
               (day date mod 2 = 0 ->
                at_get roster idx (CStr (column_name date))
                = Some (CStr WORK_DAY))
               /\ (day date mod 2 <> 0 ->
                   at_get roster idx (CStr (column_name date))
                   = Some (CStr WORK_NIGHT))).
Proof.
  apply (shift_by_day_of_month alice_bob (mkDate 2024 1 30) 4); reflexivity.
Defined.

(** A horizon over the end of January: the parity is that of 30, 31, 1, 2. *)
Example generate_roster_month_boundary :
  generate_roster alice_bob (mkDate 2024 1 30) 4
  = Ret (mkDF
           [CStr "Employee ID"; CStr "NAME"; CStr "Department";
            CStr "Tue 30-Jan"; CStr "Wed 31-Jan"; CStr "Thu 01-Feb";
            CStr "Fri 02-Feb"]
           [[CStr "E1"; CStr "Alice"; CStr "Inbound";
             CStr WORK_DAY; CStr WORK_NIGHT; CStr WORK_NIGHT; CStr WORK_DAY];
            [CStr "E2"; CStr "Bob"; CStr "Inbound";
             CStr WEEK_OFF; CStr WEEK_OFF; CStr WORK_NIGHT; CStr WORK_DAY]]).
Proof. vm_compute. reflexivity. Qed.

(** C9, as stated, fails on the last day of the calendar: the second date
    of the horizon does not exist and [date + timedelta] raises. *)
Lemma generate_roster_overflow :
  valid (mkDate 9999 12 31) = true
  /\ rectangular alice_bob = true
  /\ generate_roster alice_bob (mkDate 9999 12 31) 2 = Raise OverflowError.
Proof. repeat split; vm_compute; reflexivity. Qed.

(** C9, amended. [generate_roster] returns a grid with every employee row
    for every employee frame, valid start date and horizon whose days are
    all dates of the calendar; a horizon of zero (or fewer) days returns the
    employee frame as it is, with no date column. *)
Theorem generate_roster_total (employee_df : DataFrame) (start_date : date)
    (num_days : Z) :
  valid start_date = true ->
  in_calendar start_date num_days = true ->
  exists roster,
    generate_roster employee_df start_date num_days = Ret roster
    /\ List.length (rows roster) = List.length (rows employee_df)
    /\ (num_days <= 0 -> roster = employee_df).
Proof.
  intros Hv Hc. unfold generate_roster.
  rewrite date_range_in_calendar by assumption. simpl.
  eexists. split; [reflexivity|]. split.
  - apply fill_days_nrows_any.
  - intro Hn. now rewrite range_nonpos.
Qed.

Lemma generate_roster_total_witness :
  exists roster,
    generate_roster alice_bob (mkDate 2024 3 1) 0 = Ret roster
    /\ List.length (rows roster) = List.length (rows alice_bob)
    /\ (0 <= 0 -> roster = alice_bob).
Proof.
  apply (generate_roster_total alice_bob (mkDate 2024 3 1) 0); reflexivity.
Defined.

(* ================================================================== *)
(** ** Columns by label *)

Lemma positions_nonempty (label : cell) (cols : list cell) (from : nat) :
  existsb (cell_eqb label) cols = true -> positions label cols from <> [].
Proof.
  revert from. induction cols as [|c cols IH]; intros from; simpl;
    [discriminate|].
  rewrite (cell_eqb_sym label c).
  destruct (cell_eqb c label); simpl; [discriminate|apply IH].
Qed.

Lemma positions_absent (label : cell) (cols : list cell) (from : nat) :
  existsb (cell_eqb label) cols = false -> positions label cols from = [].
Proof.
  revert from. induction cols as [|c cols IH]; intros from; simpl;
    [reflexivity|].
  rewrite (cell_eqb_sym label c).
  destruct (cell_eqb c label); simpl; [discriminate|apply IH].
Qed.

Lemma positions_snoc_other (label label' : cell) (cols : list cell)
    (from : nat) :
  cell_eqb label' label = false ->
  positions label (cols ++ [label']) from = positions label cols from.
Proof.
  intro Hne. revert from.
  induction cols as [|c cols IH]; intro from; simpl.
  - now rewrite Hne.
  - now rewrite IH.
Qed.

Lemma take_positions (label : cell) (cols r pre : list cell) :
  List.length r = List.length cols ->
  take (positions label cols (List.length pre)) (pre ++ r)
  = cells_under cols r label.
Proof.
  revert r pre. induction cols as [|c cols IH]; intros [|x r] pre Hlen;
    simpl in *; try discriminate; try reflexivity.
  injection Hlen as Hlen.
  assert (Htl : take (positions label cols (S (List.length pre)))
                     (pre ++ x :: r) = cells_under cols r label).
  { replace (S (List.length pre)) with (List.length (pre ++ [x]))
      by (rewrite length_app; simpl; lia).
    replace (pre ++ x :: r)%list with ((pre ++ [x]) ++ r)%list
      by (rewrite <- app_assoc; reflexivity).
    now apply IH. }
  destruct (cell_eqb c label); [|assumption].
  unfold take in *. simpl. rewrite Htl. f_equal.
  rewrite app_nth2 by lia. now rewrite Nat.sub_diag.
Qed.

Lemma take_length (ps : list nat) (r : list cell) :
  List.length (take ps r) = List.length ps.
Proof. apply length_map. Qed.

Lemma getitem_rectangular (df out : DataFrame) (keys : list cell) :
  getitem df keys = Ret out -> rectangular out = true.
Proof.
  unfold getitem. intro H. apply bind_Ret_inv in H.
  destruct H as [ps [_ H]]. injection H as <-.
  unfold rectangular. simpl. apply forallb_forall. intros r Hr.
  apply in_map_iff in Hr. destruct Hr as [r0 [<- _]].
  apply Nat.eqb_eq. now rewrite !take_length.
Qed.

(** The three ways of [project_columns]: the kept labels, the six-column
    layout when nothing is kept and there are six columns or more, and a
    [ValueError] from the assignment of the labels otherwise. *)
Lemma project_columns_cases (df : DataFrame) :
  project_columns df
  = if is_nil (filter keep_column (columns df)) then
      if (6 <=? List.length (columns df))%nat
      then getitem (mkDF (SIX_LABELS ++ skipn 6 (columns df)) (rows df))
                   THREE_LABELS
      else Raise ValueError
    else getitem df (filter keep_column (columns df)).
Proof.
  unfold project_columns.
  destruct (filter keep_column (columns df)) as [|k ks] eqn:Hk;
    [|reflexivity].
  cbn [is_nil]. unfold set_columns. cbn [columns rows].
  rewrite length_app, length_skipn.
  change (List.length SIX_LABELS) with 6%nat.
  change (List.length THREE_LABELS) with 3%nat.
  destruct (Nat.leb_spec 6 (List.length (columns df))) as [H6|H6].
  - replace (3 <=? List.length (columns df))%nat with true
      by (symmetry; apply Nat.leb_le; lia).
    replace (6 + (List.length (columns df) - 6)
             =? List.length (columns df))%nat with true
      by (symmetry; apply Nat.eqb_eq; lia).
    reflexivity.
  - destruct (Nat.leb_spec 3 (List.length (columns df))) as [H3|H3].
    + replace (6 + (List.length (columns df) - 6)
               =? List.length (columns df))%nat with false
        by (symmetry; apply Nat.eqb_neq; lia).
      reflexivity.
    + cbn [bind is_nil negb iloc_first3 columns rows].
      rewrite length_firstn.
      replace (3 =? Nat.min 3 (List.length (columns df)))%nat with false
        by (symmetry; apply Nat.eqb_neq; lia).
      reflexivity.
Qed.

Lemma project_columns_rectangular (df df_clean : DataFrame) :
  project_columns df = Ret df_clean -> rectangular df_clean = true.
Proof.
  rewrite project_columns_cases.
  destruct (is_nil _); [destruct (6 <=? _)%nat|];
    try discriminate; apply getitem_rectangular.
Qed.

Lemma with_department_rectangular (df_clean : DataFrame) :
  rectangular df_clean = true -> rectangular (with_department df_clean) = true.
Proof.
  intro H. unfold with_department.
  destruct (negb _); [now apply setitem_rectangular|assumption].
Qed.

Lemma with_department_has_column (df_clean : DataFrame) (label : cell) :
  has_column df_clean label = true ->
  has_column (with_department df_clean) label = true.
Proof.
  unfold with_department, setitem.
  destruct (has_column df_clean (CStr "Department")); simpl; auto.
  unfold has_column. simpl. rewrite existsb_app. intros ->. reflexivity.
Qed.

(** The rows [dropna] keeps are those with a cell that is there under
    Employee ID or NAME. *)
Lemma dropna_all_id_name (work : DataFrame) :
  rectangular work = true ->
  has_column work (CStr "Employee ID") = true ->
  has_column work (CStr "NAME") = true ->
  dropna_all work [CStr "Employee ID"; CStr "NAME"]
  = Ret (mkDF (columns work)
              (filter (fun r => negb (both_missing (columns work) r))
                      (rows work))).
Proof.
  intros Hrect Hid Hname. unfold dropna_all, get_indexer. simpl.
  destruct (positions (CStr "Employee ID") (columns work) 0) as [|p ps] eqn:Ep;
    [now apply positions_nonempty with (from := 0%nat) in Hid|].
  destruct (positions (CStr "NAME") (columns work) 0) as [|q qs] eqn:Eq;
    [now apply positions_nonempty with (from := 0%nat) in Hname|].
  simpl. do 2 f_equal. apply filter_ext_in. intros r Hr.
  assert (Hlen : List.length r = List.length (columns work)).
  { apply rectangular_Forall in Hrect. rewrite Forall_forall in Hrect.
    now apply Hrect. }
  f_equal. unfold both_missing.
  rewrite <- (take_positions (CStr "Employee ID") (columns work) r [] Hlen).
  rewrite <- (take_positions (CStr "NAME") (columns work) r [] Hlen).
  simpl. rewrite Ep, Eq, app_nil_r.
  change (p :: ps ++ q :: qs)%list with ((p :: ps) ++ (q :: qs))%list.
  unfold take. simpl. rewrite map_app, forallb_app. simpl.
  now rewrite andb_assoc.
Qed.

(** What [finish] returns on a rectangular [df_clean]. *)
Lemma finish_cases (df_clean : DataFrame) :
  rectangular df_clean = true ->
  finish df_clean
  = if negb (has_column df_clean (CStr "Employee ID")) then
      Ret (MissingColumn "Employee ID")
    else if negb (has_column df_clean (CStr "NAME")) then
      Ret (MissingColumn "NAME")
    else
      let work := with_department df_clean in
      Ret (Cleaned
             (mkDF (columns work)
                   (filter (fun r => negb (both_missing (columns work) r))
                           (rows work)))).
Proof.
  intro Hrect. unfold finish.
  destruct (has_column df_clean (CStr "Employee ID")) eqn:Hid; simpl;
    [|reflexivity].
  destruct (has_column df_clean (CStr "NAME")) eqn:Hname; simpl;
    [|reflexivity].
  fold (with_department df_clean).
  rewrite dropna_all_id_name;
    auto using with_department_rectangular, with_department_has_column.
Qed.

Lemma clean_employee_data_inv (df : DataFrame) (res : cleaned) :
  clean_employee_data df = Ret res ->
  exists df1 df_clean,
    header_repair df = Ret df1
    /\ project_columns df1 = Ret df_clean
    /\ rectangular df_clean = true
    /\ finish df_clean = Ret res.
Proof.
  unfold clean_employee_data. intro H.
  apply bind_Ret_inv in H. destruct H as [df1 [H1 H]].
  apply bind_Ret_inv in H. destruct H as [dfc [H2 H]].
  exists df1, dfc. repeat split; try assumption.
  now apply project_columns_rectangular with (df := df1).
Qed.

(** ** Substrings of the stringified row *)

Lemma prefix_app (p a b : string) :
  String.prefix p a = true -> String.prefix p (a ++ b) = true.
Proof.
  revert a. induction p as [|c p IH]; intros [|x a]; simpl; auto;
    try discriminate.
  - intros _. now destruct b.
  - destruct (ascii_dec c x); [apply IH|discriminate].
Qed.

Lemma contains_app_l (p a b : string) :
  PyStr.contains p a = true -> PyStr.contains p (a ++ b) = true.
Proof.
  induction a as [|x a IH]; simpl.
  - rewrite orb_false_r. intro H. destruct p; [|discriminate].
    now destruct b.
  - rewrite !orb_true_iff. intros [H|H].
    + left. now apply (prefix_app p (String x a) b).
    + right. now apply IH.
Qed.

Lemma contains_app_r (p a b : string) :
  PyStr.contains p b = true -> PyStr.contains p (a ++ b) = true.
Proof.
  intro H. induction a as [|x a IH]; simpl; [assumption|].
  rewrite IH. apply orb_true_r.
Qed.

Lemma contains_join_sep (p x sep : string) (l : list string) :
  In x l -> PyStr.contains p x = true ->
  PyStr.contains p (PyStr.join_sep sep l) = true.
Proof.
  intros Hin Hp. induction l as [|y l IH]; [destruct Hin|].
  destruct l as [|z l].
  - destruct Hin as [->|[]]. assumption.
  - change (PyStr.join_sep sep (y :: z :: l))
      with (y ++ sep ++ PyStr.join_sep sep (z :: l)).
    destruct Hin as [->|Hin].
    + now apply contains_app_l.
    + apply contains_app_r, contains_app_r. now apply IH.
Qed.

(** A cell that holds the marker inside a longer string makes the first
    row a header, in a row of at most a hundred cells, which either array
    prints in full. *)
Lemma first_row_is_header_substring (string_array : bool)
    (values : list cell) (s : string) :
  (List.length values <= 100)%nat ->
  In (CStr s) values ->
  PyStr.contains "Employee ID" s = true ->
  first_row_is_header string_array values = true.
Proof.
  intros Hlen Hin Hs. unfold first_row_is_header, str_values. cbv zeta.
  replace (100 <? List.length values)%nat with false
    by (symmetry; apply Nat.ltb_ge; lia).
  replace (1000 <? List.length values)%nat with false
    by (symmetry; apply Nat.ltb_ge; lia).
  apply orb_true_iff. right.
  assert (Hrepr : PyStr.contains "Employee ID" (repr (CStr s)) = true).
  { unfold repr. apply (contains_app_r "Employee ID" "'" (s ++ "'")).
    now apply contains_app_l. }
  destruct string_array;
    apply contains_app_r, contains_app_l;
    apply contains_join_sep with (x := repr (CStr s));
    auto using in_map.
Qed.

Lemma first_row_is_header_iff (string_array : bool) (values : list cell) :
  first_row_is_header string_array values = true
  <-> In (CStr "Employee ID") values
      \/ PyStr.contains "Employee ID" (str_values string_array values) = true.
Proof.
  unfold first_row_is_header. rewrite orb_true_iff, existsb_exists.
  split; intros [H|H]; auto; left.
  - destruct H as [c [Hc E]]. apply cell_eqb_eq in E. now subst.
  - exists (CStr "Employee ID"). split; [assumption|apply cell_eqb_refl].
Qed.

(* ================================================================== *)
(** ** The normalizer *)

(** C8. With a first row [r0] that holds a cell equal to "Employee ID", or
    whose stringified values contain "Employee ID" (as they do when a cell
    of a row of at most a hundred cells holds it inside a longer string),
    [clean_employee_data] goes on with [r0] as the column labels and without
    [r0] among the rows; with any other first row it goes on with the frame
    as it is. *)
Theorem header_repair_first_row (df : DataFrame) (r0 : list cell)
    (rest : list (list cell)) :
  rows df = r0 :: rest ->
  List.length r0 = List.length (columns df) ->
  let marked :=
    In (CStr "Employee ID") r0
    \/ PyStr.contains "Employee ID" (str_values (string_row df) r0) = true in
  let continue df1 := df_clean <- project_columns df1 ;; finish df_clean in
  (marked ->
   header_repair df = Ret (mkDF r0 rest)
   /\ clean_employee_data df = continue (mkDF r0 rest))
  /\ (forall s,
        (List.length r0 <= 100)%nat ->
        In (CStr s) r0 -> PyStr.contains "Employee ID" s = true -> marked)
  /\ (~ marked ->
      header_repair df = Ret df /\ clean_employee_data df = continue df).
Proof.
  intros Hrows Hlen marked continue.
  assert (Hyes : marked -> header_repair df = Ret (mkDF r0 rest)).
  { intro Hm. apply first_row_is_header_iff in Hm.
    unfold header_repair, iloc0, set_columns. rewrite Hrows. cbn [bind].
    rewrite Hm. cbn [columns rows tl]. rewrite Hlen, Nat.eqb_refl.
    reflexivity. }
  assert (Hno : ~ marked -> header_repair df = Ret df).
  { intro Hm. unfold header_repair, iloc0. rewrite Hrows. cbn [bind].
    destruct (first_row_is_header (string_row df) r0) eqn:E; [|reflexivity].
    apply first_row_is_header_iff in E. contradiction. }
  split; [|split].
  - intro Hm. split; [auto|]. unfold clean_employee_data.
    now rewrite (Hyes Hm).
  - intros s Hshort Hin Hs. apply first_row_is_header_iff.
    now apply first_row_is_header_substring with (s := s).
  - intro Hm. split; [auto|]. unfold clean_employee_data.
    now rewrite (Hno Hm).
Qed.

Lemma header_repair_first_row_witness :
  let r0 := [CStr "Report"; CStr "Employee ID No."; CStr "NAME"] in
  let rest := [[CStr "x"; CStr "E1"; CStr "Alice"]] in
  let marked :=
    In (CStr "Employee ID") r0
    \/ PyStr.contains "Employee ID" (str_values (string_row titled_table) r0)
       = true in
  let continue df1 := df_clean <- project_columns df1 ;; finish df_clean in
  (marked ->
   header_repair titled_table = Ret (mkDF r0 rest)
   /\ clean_employee_data titled_table = continue (mkDF r0 rest))
  /\ (forall s,
        (List.length r0 <= 100)%nat ->
        In (CStr s) r0 -> PyStr.contains "Employee ID" s = true -> marked)
  /\ (~ marked ->
      header_repair titled_table = Ret titled_table
      /\ clean_employee_data titled_table = continue titled_table).
Proof.
  apply (header_repair_first_row titled_table
           [CStr "Report"; CStr "Employee ID No."; CStr "NAME"]
           [[CStr "x"; CStr "E1"; CStr "Alice"]]);
    reflexivity.
Defined.

(** The marker inside a longer string of the first row: the row becomes the
    header. *)
Example titled_table_repaired :
  header_repair titled_table
  = Ret (mkDF [CStr "Report"; CStr "Employee ID No."; CStr "NAME"]
              [[CStr "x"; CStr "E1"; CStr "Alice"]]).
Proof. reflexivity. Qed.

(** The same marker in the middle of a first row of 101 strings is not
    printed, and the row stays a data row; with a number in the row the
    array is a numpy array, which prints it, and the row becomes the
    header. *)
Example wide_text_row_not_repaired :
  header_repair (wide_table (CStr "w")) = Ret (wide_table (CStr "w")).
Proof. vm_compute. reflexivity. Qed.

Example wide_mixed_row_repaired :
  header_repair (wide_table (CNum 7))
  = Ret (mkDF (wide_row (CStr "v")) [wide_row (CNum 7)]).
Proof. vm_compute. reflexivity. Qed.

(** C10. On a table without data rows [clean_employee_data] raises: the
    header test reads the first row before anything else. *)
Theorem clean_employee_data_no_rows (cols : list cell) :
  clean_employee_data (mkDF cols []) = Raise IndexError.
Proof. reflexivity. Qed.


(** A kept label with white space around it is not the required label. *)
Example padded_label_is_missing :
  clean_employee_data
    (mkDF [CStr "Employee ID"; CStr " NAME"] [[CStr "E1"; CStr "Alice"]])
  = Ret (MissingColumn "NAME").
Proof. reflexivity. Qed.

(** C5. When [clean_employee_data] returns a frame, its rows are the rows
    of the working table (the kept columns, with Department) in their
    order, without exactly those in which Employee ID and NAME are both
    missing; a row with one of the two is kept as it is. *)
Theorem dropna_drops_blank_rows_only (df out : DataFrame) :
  clean_employee_data df = Ret (Cleaned out) ->
  exists df1 df_clean,
    header_repair df = Ret df1
    /\ project_columns df1 = Ret df_clean
    /\ let work := with_department df_clean in
       columns out = columns work
       /\ rows out
          = filter (fun r => negb (both_missing (columns work) r)) (rows work)
       /\ forall r, In r (rows work) ->
            (In r (rows out) <-> both_missing (columns work) r = false).
Proof.
  intro H. apply clean_employee_data_inv in H.
  destruct H as [df1 [dfc [H1 [H2 [Hrect H]]]]].
  exists df1, dfc. split; [assumption|]. split; [assumption|].
  rewrite finish_cases in H by assumption.
  destruct (negb (has_column dfc (CStr "Employee ID"))); [discriminate|].
  destruct (negb (has_column dfc (CStr "NAME"))); [discriminate|].
  cbv zeta in *. injection H as <-. simpl.
  split; [reflexivity|]. split; [reflexivity|].
  intros r Hr. rewrite filter_In, negb_true_iff. tauto.
Qed.

Lemma dropna_drops_blank_rows_only_witness :
  exists df1 df_clean,
    header_repair banner_table = Ret df1
    /\ project_columns df1 = Ret df_clean
    /\ let work := with_department df_clean in
       columns (mkDF THREE_LABELS
                     [[CStr "E1"; CStr "Alice"; CStr "Inbound"];
                      [CNaN; CStr "Bob"; CStr "Inbound"]])
       = columns work
       /\ rows (mkDF THREE_LABELS
                     [[CStr "E1"; CStr "Alice"; CStr "Inbound"];
                      [CNaN; CStr "Bob"; CStr "Inbound"]])
          = filter (fun r => negb (both_missing (columns work) r)) (rows work)
       /\ forall r, In r (rows work) ->
            (In r (rows (mkDF THREE_LABELS
                              [[CStr "E1"; CStr "Alice"; CStr "Inbound"];
                               [CNaN; CStr "Bob"; CStr "Inbound"]]))
             <-> both_missing (columns work) r = false).
Proof.
  apply (dropna_drops_blank_rows_only banner_table). reflexivity.
Defined.

(** C4, as stated, fails: a row with an Employee ID and no NAME is a record
    of the list that is returned. *)
Lemma nameless_record_kept :
  clean_employee_data nameless_table
  = Ret (Cleaned (mkDF THREE_LABELS
                       [[CStr "E1"; CNaN; CStr "Inbound"];
                        [CStr "E2"; CStr "Bob"; CStr "Inbound"]]))
  /\ complete_record THREE_LABELS [CStr "E1"; CNaN; CStr "Inbound"] = false.
Proof. split; reflexivity. Qed.

(** C4, amended. Every record of the list [clean_employee_data] returns has
    an Employee ID or a NAME that is not missing, and only the rows in which
    both are missing are dropped: the records are the rows of the working
    table (the kept columns, with Department), in their order, without
    those rows; a row with one of the two is a record. *)
Theorem cleaned_records_not_blank (df out : DataFrame) :
  clean_employee_data df = Ret (Cleaned out) ->
  Forall (fun r => both_missing (columns out) r = false) (rows out)
  /\ exists df1 df_clean,
       header_repair df = Ret df1
       /\ project_columns df1 = Ret df_clean
       /\ let work := with_department df_clean in
          columns out = columns work
          /\ rows out
             = filter (fun r => negb (both_missing (columns work) r))
                      (rows work)
          /\ forall r, In r (rows work) ->
               (both_missing (columns work) r = false -> In r (rows out))
               /\ (both_missing (columns work) r = true ->
                   ~ In r (rows out)).
Proof.
  intro H. apply clean_employee_data_inv in H.
  destruct H as [df1 [dfc [H1 [H2 [Hrect H]]]]].
  rewrite finish_cases in H by assumption.
  destruct (negb (has_column dfc (CStr "Employee ID"))); [discriminate|].
  destruct (negb (has_column dfc (CStr "NAME"))); [discriminate|].
  cbv zeta in *. injection H as <-. cbn [columns rows]. split.
  - apply Forall_forall. intros r Hr. apply filter_In in Hr.
    now apply negb_true_iff.
  - exists df1, dfc. split; [assumption|]. split; [assumption|].
    split; [reflexivity|]. split; [reflexivity|].
    intros r Hr. rewrite filter_In, negb_true_iff. split.
    + intro Hb. now split.
    + intros Hb [_ Hb']. congruence.
Qed.

Lemma cleaned_records_not_blank_witness :
  Forall (fun r => both_missing THREE_LABELS r = false)
         [[CStr "E1"; CStr "Alice"; CStr "Inbound"];
          [CNaN; CStr "Bob"; CStr "Inbound"]]
  /\ exists df1 df_clean,
       header_repair banner_table = Ret df1
       /\ project_columns df1 = Ret df_clean
       /\ let work := with_department df_clean in
          THREE_LABELS = columns work
          /\ [[CStr "E1"; CStr "Alice"; CStr "Inbound"];
              [CNaN; CStr "Bob"; CStr "Inbound"]]
             = filter (fun r => negb (both_missing (columns work) r))
                      (rows work)
          /\ forall r, In r (rows work) ->
               (both_missing (columns work) r = false ->
                In r [[CStr "E1"; CStr "Alice"; CStr "Inbound"];
                      [CNaN; CStr "Bob"; CStr "Inbound"]])
               /\ (both_missing (columns work) r = true ->
                   ~ In r [[CStr "E1"; CStr "Alice"; CStr "Inbound"];
                           [CNaN; CStr "Bob"; CStr "Inbound"]]).
Proof.
  apply (cleaned_records_not_blank banner_table
           (mkDF THREE_LABELS
                 [[CStr "E1"; CStr "Alice"; CStr "Inbound"];
                  [CNaN; CStr "Bob"; CStr "Inbound"]])).
  reflexivity.
Defined.

Lemma no_known_label (cols : list cell) (label : cell) (n : nat) :
  filter keep_column cols = [] ->
  keep_column label = true ->
  existsb (cell_eqb label) (skipn n cols) = false.
Proof.
  intros Hnone Hkeep.
  destruct (existsb (cell_eqb label) (skipn n cols)) eqn:E; [|reflexivity].
  apply existsb_exists in E. destruct E as [c [Hc E]].
  apply cell_eqb_eq in E. subst c.
  assert (Hin : In label (filter keep_column cols)).
  { apply filter_In. split; [|assumption].
    rewrite <- (firstn_skipn n cols). apply in_or_app. now right. }
  rewrite Hnone in Hin. destruct Hin.
Qed.

(** C7, as stated, fails on a table of six unlabelled columns: the records
    are made of the first, third and fifth cell of a row, not of its first
    three. *)
Lemma six_unlabelled_not_first_three :
  filter keep_column (columns six_unlabelled) = []
  /\ (3 <= List.length (columns six_unlabelled))%nat
  /\ ~ first_three_fallback six_unlabelled.
Proof.
  split; [reflexivity|]. split; [simpl; lia|].
  intros [out [H [_ Hrows]]]. vm_compute in H. injection H as <-.
  destruct (Hrows [CStr "E1"; CStr "Alice"; CStr "Ops"]) as [r0 [Hin E]];
    [now left|].
  destruct Hin as [<-|[]]. discriminate E.
Qed.

(** On three unlabelled columns the six labels do not fit. *)
Example three_unlabelled_raises :
  clean_employee_data three_unlabelled = Raise ValueError.
Proof. reflexivity. Qed.

(** C7, amended. For every table of six columns or more whose labels, after
    header repair, match none of the known names, the fallback labels the
    first six columns Employee ID, User ID, NAME, Status, Department, WINS
    and the records are made of the first, third and fifth cell of every
    row. *)
Theorem six_column_fallback (df df1 : DataFrame) :
  header_repair df = Ret df1 ->
  filter keep_column (columns df1) = [] ->
  (6 <= List.length (columns df1))%nat ->
  let picked :=
    map (fun r => [nth 0 r CNaN; nth 2 r CNaN; nth 4 r CNaN]) (rows df1) in
  set_columns df1 (SIX_LABELS ++ skipn 6 (columns df1))
  = Ret (mkDF (SIX_LABELS ++ skipn 6 (columns df1)) (rows df1))
  /\ project_columns df1 = Ret (mkDF THREE_LABELS picked)
  /\ clean_employee_data df
     = Ret (Cleaned
              (mkDF THREE_LABELS
                    (filter (fun r => negb (both_missing THREE_LABELS r))
                            picked))).
Proof.
  intros Hrep Hnone H6 picked.
  assert (Hproj : project_columns df1 = Ret (mkDF THREE_LABELS picked)).
  { rewrite project_columns_cases, Hnone. cbn [is_nil].
    replace (6 <=? List.length (columns df1))%nat with true
      by (symmetry; now apply Nat.leb_le).
    assert (Hrest : forall label, keep_column label = true ->
              existsb (cell_eqb label) (skipn 6 (columns df1)) = false)
      by (intros label Hl; now apply no_known_label).
    unfold getitem, get_indexer. cbn [columns rows].
    remember (skipn 6 (columns df1)) as rest. cbn.
    rewrite !positions_absent by (apply Hrest; reflexivity).
    reflexivity. }
  split; [|split].
  - unfold set_columns. rewrite length_app, length_skipn.
    change (List.length SIX_LABELS) with 6%nat.
    replace (6 + (List.length (columns df1) - 6)
             =? List.length (columns df1))%nat with true
      by (symmetry; apply Nat.eqb_eq; lia).
    reflexivity.
  - exact Hproj.
  - unfold clean_employee_data. rewrite Hrep. cbn [bind].
    rewrite Hproj. cbn [bind].
    rewrite finish_cases
      by (apply (project_columns_rectangular df1); exact Hproj).
    reflexivity.
Qed.

Lemma six_column_fallback_witness :
  let picked :=
    map (fun r => [nth 0 r CNaN; nth 2 r CNaN; nth 4 r CNaN])
        (rows six_unlabelled) in
  set_columns six_unlabelled (SIX_LABELS ++ skipn 6 (columns six_unlabelled))
  = Ret (mkDF (SIX_LABELS ++ skipn 6 (columns six_unlabelled))
              (rows six_unlabelled))
  /\ project_columns six_unlabelled = Ret (mkDF THREE_LABELS picked)
  /\ clean_employee_data six_unlabelled
     = Ret (Cleaned
              (mkDF THREE_LABELS
                    (filter (fun r => negb (both_missing THREE_LABELS r))
                            picked))).
Proof.
  apply (six_column_fallback six_unlabelled six_unlabelled);
    [reflexivity | reflexivity | simpl; lia].
Defined.

(* ================================================================== *)
(** ** More on the normalizer *)

Lemma header_repair_rows (df df1 : DataFrame) :
  header_repair df = Ret df1 ->
  rows df1 = rows df
  \/ exists r0, rows df = r0 :: rows df1 /\ columns df1 = r0.
Proof.
  unfold header_repair, iloc0, set_columns.
  destruct (rows df) as [|r0 rest] eqn:Hrows; simpl; [discriminate|].
  destruct (first_row_is_header _ r0).
  - destruct (_ =? _)%nat; [|discriminate].
    intro H. injection H as <-. right. exists r0. now split.
  - intro H. injection H as <-. now left.
Qed.

Lemma getitem_nrows (df out : DataFrame) (keys : list cell) :
  getitem df keys = Ret out ->
  List.length (rows out) = List.length (rows df).
Proof.
  unfold getitem. intro H. apply bind_Ret_inv in H.
  destruct H as [ps [_ H]]. injection H as <-. simpl. apply length_map.
Qed.

Lemma project_columns_nrows (df df_clean : DataFrame) :
  project_columns df = Ret df_clean ->
  List.length (rows df_clean) = List.length (rows df).
Proof.
  rewrite project_columns_cases.
  destruct (is_nil _); [destruct (6 <=? _)%nat|]; try discriminate;
    intro H; apply getitem_nrows in H; exact H.
Qed.

Lemma with_department_nrows (df_clean : DataFrame) :
  List.length (rows (with_department df_clean))
  = List.length (rows df_clean).
Proof.
  unfold with_department. destruct (negb _); [apply setitem_nrows|reflexivity].
Qed.

Lemma with_department_has_department (df_clean : DataFrame) :
  has_column (with_department df_clean) (CStr "Department") = true.
Proof.
  unfold with_department, setitem.
  destruct (has_column df_clean (CStr "Department")) eqn:E; simpl;
    [assumption|].
  unfold has_column. simpl. rewrite existsb_app. simpl. apply orb_true_r.
Qed.

(** The frame [finish] returns, read off [finish_cases]. *)
Lemma finish_Cleaned (df_clean out : DataFrame) :
  rectangular df_clean = true ->
  finish df_clean = Ret (Cleaned out) ->
  has_column df_clean (CStr "Employee ID") = true
  /\ has_column df_clean (CStr "NAME") = true
  /\ out = mkDF (columns (with_department df_clean))
                (filter (fun r => negb (both_missing
                                          (columns (with_department df_clean))
                                          r))
                        (rows (with_department df_clean))).
Proof.
  intros Hrect H. rewrite finish_cases in H by assumption.
  destruct (has_column df_clean (CStr "Employee ID")); simpl in H;
    [|discriminate].
  destruct (has_column df_clean (CStr "NAME")); simpl in H; [|discriminate].
  injection H as <-. auto.
Qed.

Lemma positions_nth (label : cell) (cols : list cell) (from p : nat) :
  In p (positions label cols from) ->
  (from <= p)%nat /\ nth_error cols (p - from) = Some label.
Proof.
  revert from. induction cols as [|c cols IH]; intros from Hin; simpl in Hin;
    [destruct Hin|].
  assert (Htl : In p (positions label cols (S from)) ->
                (from <= p)%nat /\ nth_error (c :: cols) (p - from) = Some label).
  { intro H. apply IH in H. destruct H as [Hle Hn]. split; [lia|].
    replace (p - from)%nat with (S (p - S from)) by lia. exact Hn. }
  destruct (cell_eqb c label) eqn:E; [|auto].
  destruct Hin as [<-|Hin]; [|auto].
  split; [lia|]. rewrite Nat.sub_diag. simpl.
  apply cell_eqb_eq in E. now subst.
Qed.

Lemma get_indexer_In (cols keys : list cell) (ps : list nat) (p : nat) :
  get_indexer cols keys = Ret ps ->
  In p ps ->
  exists k, In k keys /\ nth_error cols p = Some k.
Proof.
  unfold get_indexer. intro H. apply bind_Ret_inv in H.
  destruct H as [pss [Hpss H]]. injection H as <-.
  revert pss Hpss. induction keys as [|k keys IH]; intros pss Hpss Hin.
  - simpl in Hpss. injection Hpss as <-. destruct Hin.
  - simpl in Hpss. apply bind_Ret_inv in Hpss.
    destruct Hpss as [ps0 [Hps0 Hpss]]. apply bind_Ret_inv in Hpss.
    destruct Hpss as [pss' [Hpss' Hpss]]. injection Hpss as <-.
    simpl in Hin. apply in_app_or in Hin. destruct Hin as [Hin|Hin].
    + exists k. split; [now left|].
      destruct (positions k cols 0) as [|q qs] eqn:Ep; [discriminate|].
      injection Hps0 as <-. rewrite <- Ep in Hin.
      apply positions_nth in Hin. destruct Hin as [_ Hin].
      now rewrite Nat.sub_0_r in Hin.
    + destruct (IH pss' Hpss' Hin) as [k' [Hk' Hn]].
      exists k'. split; [now right|assumption].
Qed.

Lemma getitem_columns (df out : DataFrame) (keys : list cell)
    (P : cell -> Prop) :
  getitem df keys = Ret out ->
  Forall P keys -> Forall P (columns out).
Proof.
  unfold getitem. intros H HP. apply bind_Ret_inv in H.
  destruct H as [ps [Hps H]]. injection H as <-. simpl.
  rewrite Forall_forall in *. intros c Hc. unfold take in Hc.
  apply in_map_iff in Hc. destruct Hc as [p [<- Hp]].
  destruct (get_indexer_In _ _ _ _ Hps Hp) as [k [Hk Hn]].
  rewrite (nth_error_nth _ _ _ Hn). now apply HP.
Qed.

Lemma project_columns_known (df df_clean : DataFrame) :
  project_columns df = Ret df_clean ->
  Forall (fun c => keep_column c = true) (columns df_clean).
Proof.
  rewrite project_columns_cases.
  destruct (is_nil _); [destruct (6 <=? _)%nat|]; try discriminate;
    intro H; apply (getitem_columns _ _ _ _ H).
  - repeat constructor.
  - apply Forall_forall. intros c Hc. now apply filter_In in Hc.
Qed.

Lemma filter_rectangular (cols : list cell) (f : list cell -> bool)
    (rs : list (list cell)) :
  rectangular (mkDF cols rs) = true ->
  rectangular (mkDF cols (filter f rs)) = true.
Proof.
  unfold rectangular. simpl. rewrite !forallb_forall.
  intros H r Hr. apply filter_In in Hr. now apply H.
Qed.

(** X1. The frame [clean_employee_data] returns is rectangular and has the
    columns Employee ID, NAME and Department. *)
Theorem cleaned_frame_shape (df out : DataFrame) :
  clean_employee_data df = Ret (Cleaned out) ->
  rectangular out = true
  /\ has_column out (CStr "Employee ID") = true
  /\ has_column out (CStr "NAME") = true
  /\ has_column out (CStr "Department") = true.
Proof.
  intro H. apply clean_employee_data_inv in H.
  destruct H as [df1 [dfc [_ [_ [Hrect H]]]]].
  apply finish_Cleaned in H; [|assumption].
  destruct H as [Hid [Hname ->]]. split; [|split; [|split]].
  - apply filter_rectangular.
    apply with_department_rectangular in Hrect.
    now destruct (with_department dfc).
  - now apply with_department_has_column.
  - now apply with_department_has_column.
  - apply with_department_has_department.
Qed.

Lemma cleaned_frame_shape_witness :
  rectangular (mkDF THREE_LABELS
                    [[CStr "E1"; CStr "Alice"; CStr "Inbound"];
                     [CNaN; CStr "Bob"; CStr "Inbound"]]) = true
  /\ has_column (mkDF THREE_LABELS
                      [[CStr "E1"; CStr "Alice"; CStr "Inbound"];
                       [CNaN; CStr "Bob"; CStr "Inbound"]])
                (CStr "Employee ID") = true
  /\ has_column (mkDF THREE_LABELS
                      [[CStr "E1"; CStr "Alice"; CStr "Inbound"];
                       [CNaN; CStr "Bob"; CStr "Inbound"]])
                (CStr "NAME") = true
  /\ has_column (mkDF THREE_LABELS
                      [[CStr "E1"; CStr "Alice"; CStr "Inbound"];
                       [CNaN; CStr "Bob"; CStr "Inbound"]])
                (CStr "Department") = true.
Proof.
  apply (cleaned_frame_shape banner_table). reflexivity.
Defined.

(** X2. The tests on "2", "nan" and "Unnamed" never decide: a label is kept
    exactly when, trimmed, it is one of the six known names. *)
Theorem keep_column_allow_list (col : cell) :
  keep_column col = PyStr.in_list (PyStr.strip (str col)) KNOWN.
Proof.
  unfold keep_column. cbv zeta.
  destruct (PyStr.in_list (PyStr.strip (str col)) KNOWN) eqn:E;
    [|apply andb_false_r].
  unfold PyStr.in_list, KNOWN in E. simpl in E.
  repeat (apply orb_true_iff in E; destruct E as [E|E];
          [apply String.eqb_eq in E; rewrite E; reflexivity|]).
  discriminate.
Qed.

(** X3. Every column label of the frame [clean_employee_data] returns is,
    trimmed, one of the six known names: no other column of the table
    survives. *)
Theorem cleaned_labels_known (df out : DataFrame) :
  clean_employee_data df = Ret (Cleaned out) ->
  Forall (fun c => PyStr.in_list (PyStr.strip (str c)) KNOWN = true)
         (columns out).
Proof.
  intro H. apply clean_employee_data_inv in H.
  destruct H as [df1 [dfc [_ [Hproj [Hrect H]]]]].
  apply finish_Cleaned in H; [|assumption]. destruct H as [_ [_ ->]].
  simpl. apply project_columns_known in Hproj.
  assert (Hall : Forall (fun c => keep_column c = true)
                        (columns (with_department dfc))).
  { unfold with_department, setitem.
    destruct (has_column dfc (CStr "Department")); simpl; [assumption|].
    apply Forall_app. split; [assumption|]. repeat constructor. }
  rewrite Forall_forall in *. intros c Hc. specialize (Hall c Hc).
  unfold keep_column in Hall. cbv zeta in Hall.
  apply andb_true_iff in Hall. tauto.
Qed.

Lemma cleaned_labels_known_witness :
  Forall (fun c => PyStr.in_list (PyStr.strip (str c)) KNOWN = true)
         (columns (mkDF THREE_LABELS
                        [[CStr "E1"; CStr "Alice"; CStr "Inbound"];
                         [CNaN; CStr "Bob"; CStr "Inbound"]])).
Proof.
  apply (cleaned_labels_known banner_table). reflexivity.
Defined.

(** X4. A table without a Department column gets one, last, that holds
    "Inbound" in every record; a table with a Department column keeps its
    columns as they are. *)
Theorem department_default (df df1 df_clean out : DataFrame) :
  header_repair df = Ret df1 ->
  project_columns df1 = Ret df_clean ->
  clean_employee_data df = Ret (Cleaned out) ->
  (has_column df_clean (CStr "Department") = false ->
   columns out = (columns df_clean ++ [CStr "Department"])%list
   /\ forall idx, (idx < List.length (rows out))%nat ->
        at_get out idx (CStr "Department") = Some (CStr "Inbound"))
  /\ (has_column df_clean (CStr "Department") = true ->
      columns out = columns df_clean
      /\ forall r, In r (rows out) -> In r (rows df_clean)).
Proof.
  intros Hrep Hproj H. unfold clean_employee_data in H.
  rewrite Hrep in H. cbn [bind] in H. rewrite Hproj in H. cbn [bind] in H.
  pose proof (project_columns_rectangular _ _ Hproj) as Hrect.
  apply finish_Cleaned in H; [|assumption]. destruct H as [_ [_ ->]].
  unfold with_department, setitem. split; intro Hdep; rewrite Hdep; simpl.
  - split; [reflexivity|]. intros idx Hidx. unfold at_get. simpl.
    destruct (nth_error _ idx) as [r|] eqn:Hr;
      [|apply nth_error_None in Hr; lia].
    apply nth_error_In, filter_In in Hr. destruct Hr as [Hr _].
    apply in_map_iff in Hr. destruct Hr as [r0 [<- Hr0]].
    rewrite row_get_snoc.
    + now rewrite row_get_absent, cell_eqb_refl.
    + apply rectangular_Forall in Hrect. rewrite Forall_forall in Hrect.
      now apply Hrect.
  - split; [reflexivity|]. intros r Hr. now apply filter_In in Hr.
Qed.

Lemma department_default_witness :
  (has_column nameless_table (CStr "Department") = false ->
   columns (mkDF THREE_LABELS
                 [[CStr "E1"; CNaN; CStr "Inbound"];
                  [CStr "E2"; CStr "Bob"; CStr "Inbound"]])
   = (columns nameless_table ++ [CStr "Department"])%list
   /\ forall idx,
        (idx < List.length
                 (rows (mkDF THREE_LABELS
                             [[CStr "E1"; CNaN; CStr "Inbound"];
                              [CStr "E2"; CStr "Bob"; CStr "Inbound"]])))%nat ->
        at_get (mkDF THREE_LABELS
                     [[CStr "E1"; CNaN; CStr "Inbound"];
                      [CStr "E2"; CStr "Bob"; CStr "Inbound"]])
               idx (CStr "Department") = Some (CStr "Inbound"))
  /\ (has_column nameless_table (CStr "Department") = true ->
      columns (mkDF THREE_LABELS
                    [[CStr "E1"; CNaN; CStr "Inbound"];
                     [CStr "E2"; CStr "Bob"; CStr "Inbound"]])
      = columns nameless_table
      /\ forall r,
           In r (rows (mkDF THREE_LABELS
                            [[CStr "E1"; CNaN; CStr "Inbound"];
                             [CStr "E2"; CStr "Bob"; CStr "Inbound"]])) ->
           In r (rows nameless_table)).
Proof.
  apply (department_default nameless_table nameless_table nameless_table);
    reflexivity.
Defined.

(** X5. A table of fewer than six columns none of whose labels is known
    cannot be cleaned: the assignment of the positional labels raises
    [ValueError]. *)
Theorem narrow_unlabelled_raises (df df1 : DataFrame) :
  header_repair df = Ret df1 ->
  filter keep_column (columns df1) = [] ->
  (List.length (columns df1) < 6)%nat ->
  clean_employee_data df = Raise ValueError.
Proof.
  intros Hrep Hnone Hlt. unfold clean_employee_data.
  rewrite Hrep. cbn [bind]. rewrite project_columns_cases, Hnone.
  cbn [is_nil].
  replace (6 <=? List.length (columns df1))%nat with false
    by (symmetry; apply Nat.leb_gt; lia).
  reflexivity.
Qed.

Lemma narrow_unlabelled_raises_witness :
  clean_employee_data three_unlabelled = Raise ValueError.
Proof.
  apply (narrow_unlabelled_raises three_unlabelled three_unlabelled);
    [reflexivity | reflexivity | simpl; lia].
Defined.

(** X6. [clean_employee_data] never returns more records than the table
    has rows, and fewer when the first row was the header. *)
Theorem cleaned_row_count (df df1 out : DataFrame) :
  header_repair df = Ret df1 ->
  clean_employee_data df = Ret (Cleaned out) ->
  (List.length (rows out) <= List.length (rows df))%nat
  /\ (rows df1 <> rows df ->
      (List.length (rows out) < List.length (rows df))%nat).
Proof.
  intros Hrep H. unfold clean_employee_data in H.
  rewrite Hrep in H. cbn [bind] in H. apply bind_Ret_inv in H.
  destruct H as [dfc [Hproj H]].
  pose proof (project_columns_rectangular _ _ Hproj) as Hrect.
  apply finish_Cleaned in H; [|assumption]. destruct H as [_ [_ ->]].
  cbn [rows].
  pose proof (filter_length_le
                (fun r => negb (both_missing
                                  (columns (with_department dfc)) r))
                (rows (with_department dfc))) as Hle.
  rewrite with_department_nrows, (project_columns_nrows _ _ Hproj) in Hle.
  destruct (header_repair_rows _ _ Hrep) as [E|[r0 [E _]]].
  - rewrite E in *. split; [assumption|]. intro Hne. now contradiction Hne.
  - rewrite E. simpl. split; intros; lia.
Qed.

Lemma cleaned_row_count_witness :
  (List.length (rows (mkDF THREE_LABELS
                           [[CStr "E1"; CStr "Alice"; CStr "Inbound"];
                            [CNaN; CStr "Bob"; CStr "Inbound"]]))
   <= List.length (rows banner_table))%nat
  /\ (rows (mkDF [CStr "Employee ID"; CStr "NAME"]
                 [[CStr "E1"; CStr "Alice"]; [CNaN; CNaN]; [CNaN; CStr "Bob"]])
      <> rows banner_table ->
      (List.length (rows (mkDF THREE_LABELS
                               [[CStr "E1"; CStr "Alice"; CStr "Inbound"];
                                [CNaN; CStr "Bob"; CStr "Inbound"]]))
       < List.length (rows banner_table))%nat).
Proof.
  apply (cleaned_row_count banner_table); reflexivity.
Defined.

(* ================================================================== *)
(** ** More on the roster generator *)

Lemma shift_label_values (idx : Z) (d : date) :
  shift_label idx d = "Day" \/ shift_label idx d = "Night"
  \/ shift_label idx d = "WO".
Proof.
  unfold shift_label. cbv zeta.
  destruct (idx mod 2 =? 0); destruct (PyStr.in_list _ _);
    destruct (day d mod 2 =? 0); auto.
Qed.

Lemma strftime_b_cases (d : date) : In (strftime_b d) MONTH_ABBR.
Proof.
  unfold strftime_b.
  destruct (Nat.lt_ge_cases (Z.to_nat (month d)) (List.length MONTH_ABBR))
    as [Hlt|Hge].
  - now apply nth_In.
  - rewrite nth_overflow by assumption. now left.
Qed.

(** A date column is never one of the columns the normalizer keeps. *)
Lemma column_name_not_kept (d : date) :
  keep_column (CStr (column_name d)) = false.
Proof.
  unfold column_name, strftime_d_b, strftime_d, strftime_A.
  remember (digit (day d / 10)) as c1. remember (digit (day d mod 10)) as c2.
  pose proof (strftime_b_cases d) as Hb.
  remember (strftime_b d) as m. clear Heqm. unfold MONTH_ABBR in Hb.
  destruct (weekday_cases d) as [E|[E|[E|[E|[E|[E|E]]]]]]; rewrite E;
    clear E;
    repeat (destruct Hb as [<-|Hb]; [reflexivity|]); destruct Hb.
Qed.

Lemma fill_days_at_get_other (dates : list date) (df : DataFrame)
    (idx : nat) (label : cell) :
  rectangular df = true ->
  (forall d, In d dates -> label <> CStr (column_name d)) ->
  at_get (fold_left fill_day dates df) idx label = at_get df idx label.
Proof.
  revert df. induction dates as [|d dates IH]; intros df Hrect Hne; simpl;
    [reflexivity|].
  rewrite IH.
  - apply fill_day_at_get_other; [assumption|]. apply Hne. now left.
  - now apply fill_day_rectangular.
  - intros d' Hd'. apply Hne. now right.
Qed.

(** X7. Every date cell of a roster holds "Day", "Night" or "WO", none is
    left empty, and [style_excel] gives it the fill of its value. *)
Theorem date_cells_filled (employee_df : DataFrame) (start_date : date)
    (num_days : Z) :
  valid start_date = true ->
  rectangular employee_df = true ->
  in_calendar start_date num_days = true ->
  exists roster,
    generate_roster employee_df start_date num_days = Ret roster
    /\ forall i idx,
         0 <= i < num_days ->
         (idx < List.length (rows employee_df))%nat ->
         exists date v,
           add_days start_date i = Ret date
           /\ at_get roster idx (CStr (column_name date)) = Some v
           /\ ((v = CStr "Day" /\ cell_fill v = Some day_fill)
               \/ (v = CStr "Night" /\ cell_fill v = Some night_fill)
               \/ (v = CStr "WO" /\ cell_fill v = Some wo_fill)).
Proof.
  intros Hv Hrect Hc.
  destruct (generate_roster_cells employee_df start_date num_days Hv Hrect Hc)
    as [roster [Hgen [_ Hcells]]].
  exists roster. split; [assumption|]. intros i idx Hi Hidx.
  destruct (Hcells i idx Hi Hidx) as [date [Hdate Hcell]].
  exists date, (CStr (shift_label (Z.of_nat idx) date)).
  split; [assumption|]. split; [assumption|].
  destruct (shift_label_values (Z.of_nat idx) date) as [E|[E|E]];
    rewrite E; auto.
Qed.

Lemma date_cells_filled_witness :
  exists roster,
    generate_roster alice_bob (mkDate 2024 3 1) 30 = Ret roster
    /\ forall i idx,
         0 <= i < 30 ->
         (idx < List.length (rows alice_bob))%nat ->
         exists date v,
           add_days (mkDate 2024 3 1) i = Ret date
           /\ at_get roster idx (CStr (column_name date)) = Some v
           /\ ((v = CStr "Day" /\ cell_fill v = Some day_fill)
               \/ (v = CStr "Night" /\ cell_fill v = Some night_fill)
               \/ (v = CStr "WO" /\ cell_fill v = Some wo_fill)).
Proof.
  apply (date_cells_filled alice_bob (mkDate 2024 3 1) 30); reflexivity.
Defined.

(** X8. An even row and an odd row are never off on the same day. *)
Theorem parity_rows_not_both_off (employee_df : DataFrame) (start_date : date)
    (num_days : Z) :
  valid start_date = true ->
  rectangular employee_df = true ->
  in_calendar start_date num_days = true ->
  exists roster,
    generate_roster employee_df start_date num_days = Ret roster
    /\ forall i even_idx odd_idx,
         0 <= i < num_days ->
         (even_idx < List.length (rows employee_df))%nat ->
         (odd_idx < List.length (rows employee_df))%nat ->
         Z.of_nat even_idx mod 2 = 0 ->
         Z.of_nat odd_idx mod 2 <> 0 ->
         exists date,
           add_days start_date i = Ret date
           /\ ~ (at_get roster even_idx (CStr (column_name date))
                 = Some (CStr "WO")
                 /\ at_get roster odd_idx (CStr (column_name date))
                    = Some (CStr "WO")).
Proof.
  intros Hv Hrect Hc.
  destruct (generate_roster_cells employee_df start_date num_days Hv Hrect Hc)
    as [roster [Hgen [_ Hcells]]].
  exists roster. split; [assumption|].
  intros i e o Hi He Ho Heven Hodd.
  destruct (Hcells i e Hi He) as [date [Hdate Hcell]].
  destruct (Hcells i o Hi Ho) as [date' [Hdate' Hcell']].
  rewrite Hdate in Hdate'. injection Hdate' as <-.
  exists date. split; [assumption|]. rewrite Hcell, Hcell'.
  intros [H1 H2]. injection H1 as H1. injection H2 as H2.
  apply shift_label_week_off in H1, H2. unfold week_off_day in H1, H2.
  destruct H1 as [[_ H1]|[H1 _]]; [|contradiction].
  destruct H2 as [[H2 _]|[_ H2]]; [contradiction|].
  destruct H1 as [H1|H1], H2 as [H2|H2]; rewrite H1 in H2; discriminate.
Qed.

Lemma parity_rows_not_both_off_witness :
  exists roster,
    generate_roster alice_bob (mkDate 2024 3 1) 30 = Ret roster
    /\ forall i even_idx odd_idx,
         0 <= i < 30 ->
         (even_idx < List.length (rows alice_bob))%nat ->
         (odd_idx < List.length (rows alice_bob))%nat ->
         Z.of_nat even_idx mod 2 = 0 ->
         Z.of_nat odd_idx mod 2 <> 0 ->
         exists date,
           add_days (mkDate 2024 3 1) i = Ret date
           /\ ~ (at_get roster even_idx (CStr (column_name date))
                 = Some (CStr "WO")
                 /\ at_get roster odd_idx (CStr (column_name date))
                    = Some (CStr "WO")).
Proof.
  apply (parity_rows_not_both_off alice_bob (mkDate 2024 3 1) 30);
    reflexivity.
Defined.

(** X9. [generate_roster] leaves the cells of the employee columns as they
    are: under every label the normalizer keeps, the roster holds what the
    employee frame holds. *)
Theorem employee_cells_kept (employee_df : DataFrame) (start_date : date)
    (num_days : Z) (roster : DataFrame) :
  rectangular employee_df = true ->
  generate_roster employee_df start_date num_days = Ret roster ->
  forall idx label,
    keep_column label = true ->
    at_get roster idx label = at_get employee_df idx label.
Proof.
  intros Hrect Hgen idx label Hkeep. unfold generate_roster in Hgen.
  apply bind_Ret_inv in Hgen. destruct Hgen as [dates [_ Hgen]].
  injection Hgen as <-. apply fill_days_at_get_other; [assumption|].
  intros d _ E. subst label. rewrite column_name_not_kept in Hkeep.
  discriminate.
Qed.

Lemma employee_cells_kept_witness :
  at_get
    (mkDF [CStr "Employee ID"; CStr "NAME"; CStr "Department";
           CStr "Tue 30-Jan"; CStr "Wed 31-Jan"; CStr "Thu 01-Feb";
           CStr "Fri 02-Feb"]
          [[CStr "E1"; CStr "Alice"; CStr "Inbound";
            CStr "Day"; CStr "Night"; CStr "Night"; CStr "Day"];
           [CStr "E2"; CStr "Bob"; CStr "Inbound";
            CStr "WO"; CStr "WO"; CStr "Night"; CStr "Day"]])
    1 (CStr "NAME")
  = at_get alice_bob 1 (CStr "NAME").
Proof.
  apply (employee_cells_kept alice_bob (mkDate 2024 1 30) 4);
    vm_compute; reflexivity.
Defined.

(** X10. The date cells of a row depend on the position of the row only:
    two employee frames with as many rows get the same date cells. *)
Theorem shifts_by_position (df1 df2 : DataFrame) (start_date : date)
    (num_days : Z) :
  valid start_date = true ->
  rectangular df1 = true ->
  rectangular df2 = true ->
  List.length (rows df1) = List.length (rows df2) ->
  in_calendar start_date num_days = true ->
  exists roster1 roster2,
    generate_roster df1 start_date num_days = Ret roster1
    /\ generate_roster df2 start_date num_days = Ret roster2
    /\ forall i idx date,
         0 <= i < num_days ->
         (idx < List.length (rows df1))%nat ->
         add_days start_date i = Ret date ->
         at_get roster1 idx (CStr (column_name date))
         = at_get roster2 idx (CStr (column_name date))
         /\ at_get roster1 idx (CStr (column_name date)) <> None.
Proof.
  intros Hv Hr1 Hr2 Hlen Hc.
  destruct (generate_roster_cells df1 start_date num_days Hv Hr1 Hc)
    as [roster1 [Hgen1 [_ Hcells1]]].
  destruct (generate_roster_cells df2 start_date num_days Hv Hr2 Hc)
    as [roster2 [Hgen2 [_ Hcells2]]].
  exists roster1, roster2. split; [assumption|]. split; [assumption|].
  intros i idx date Hi Hidx Hdate.
  destruct (Hcells1 i idx Hi Hidx) as [d1 [Hd1 Hcell1]].
  destruct (Hcells2 i idx Hi ltac:(lia)) as [d2 [Hd2 Hcell2]].
  rewrite Hdate in Hd1, Hd2. injection Hd1 as <-. injection Hd2 as <-.
  rewrite Hcell1, Hcell2. split; [reflexivity|discriminate].
Qed.

Lemma shifts_by_position_witness :
  exists roster1 roster2,
    generate_roster alice_bob (mkDate 2024 3 1) 30 = Ret roster1
    /\ generate_roster nameless_table (mkDate 2024 3 1) 30 = Ret roster2
    /\ forall i idx date,
         0 <= i < 30 ->
         (idx < List.length (rows alice_bob))%nat ->
         add_days (mkDate 2024 3 1) i = Ret date ->
         at_get roster1 idx (CStr (column_name date))
         = at_get roster2 idx (CStr (column_name date))
         /\ at_get roster1 idx (CStr (column_name date)) <> None.
Proof.
  apply (shifts_by_position alice_bob nameless_table (mkDate 2024 3 1) 30);
    reflexivity.
Defined.

(* ================================================================== *)
(** ** The calendar *)

Lemma month_day_table (n : Z) (leap : bool) :
  0 <= n < 365 ->
  let m := fst (month_day n leap) in
  let dd := snd (month_day n leap) in
  1 <= m <= 12
  /\ 1 <= dd <= (if (m =? 2) && leap then 29 else tbl DAYS_IN_MONTH m)
  /\ tbl DAYS_BEFORE_MONTH m + (if (2 <? m) && leap then 1 else 0) + dd
     = n + 1.
Proof.
  intro Hn.
  assert (Hall :
    forallb (fun n =>
      forallb (fun leap =>
        let m := fst (month_day n leap) in
        let dd := snd (month_day n leap) in
        (1 <=? m) && (m <=? 12) && (1 <=? dd)
        && (dd <=? (if (m =? 2) && leap then 29 else tbl DAYS_IN_MONTH m))
        && (tbl DAYS_BEFORE_MONTH m + (if (2 <? m) && leap then 1 else 0) + dd
            =? n + 1)) [true; false]) (range 365) = true)
    by (vm_compute; reflexivity).
  rewrite forallb_forall in Hall.
  specialize (Hall n ltac:(apply in_range; lia)).
  rewrite forallb_forall in Hall.
  specialize (Hall leap ltac:(destruct leap; simpl; auto)).
  cbv zeta in Hall. rewrite !andb_true_iff in Hall.
  rewrite !Z.leb_le, Z.eqb_eq in Hall. cbv zeta. lia.
Qed.

Lemma ord2ymd_parts (o : Z) :
  1 <= o ->
  exists n400 n100 n4 n1 r,
    o - 1 = 146097 * n400 + 36524 * n100 + 1461 * n4 + 365 * n1 + r
    /\ 0 <= n400 /\ 0 <= n100 <= 4 /\ 0 <= n4 <= 24 /\ 0 <= n1 <= 4
    /\ 0 <= r < 365
    /\ (n100 = 4 -> n4 = 0 /\ n1 = 0 /\ r = 0)
    /\ (n1 = 4 -> r = 0)
    /\ 1461 * n4 + 365 * n1 + r < 36524
    /\ 36524 * n100 + 1461 * n4 + 365 * n1 + r < 146097
    /\ ord2ymd o
       = let y := n400 * 400 + 1 + n100 * 100 + n4 * 4 + n1 in
         if (n1 =? 4) || (n100 =? 4) then mkDate (y - 1) 12 31
         else
           let leapyear := (n1 =? 3) && (negb (n4 =? 24) || (n100 =? 3)) in
           mkDate y (fst (month_day r leapyear)) (snd (month_day r leapyear)).
Proof.
  intro Ho.
  exists ((o - 1) / DI400Y).
  exists (((o - 1) mod DI400Y) / DI100Y).
  exists ((((o - 1) mod DI400Y) mod DI100Y) / DI4Y).
  exists (((((o - 1) mod DI400Y) mod DI100Y) mod DI4Y) / 365).
  exists (((((o - 1) mod DI400Y) mod DI100Y) mod DI4Y) mod 365).
  unfold DI400Y, DI100Y, DI4Y.
  repeat split; try (Z.to_euclidean_division_equations; lia).
  unfold ord2ymd, DI400Y, DI100Y, DI4Y. cbv zeta.
  destruct (_ || _); [reflexivity|].
  unfold month_day. cbv zeta.
  destruct (_ <? _); reflexivity.
Qed.

Lemma is_leap_parts (a b c e : Z) :
  0 <= a -> 0 <= b <= 3 -> 0 <= c <= 24 -> 0 <= e <= 3 ->
  is_leap (a * 400 + 1 + b * 100 + c * 4 + e)
  = (e =? 3) && (negb (c =? 24) || (b =? 3)).
Proof.
  intros Ha Hb Hc He. unfold is_leap.
  set (y := a * 400 + 1 + b * 100 + c * 4 + e).
  assert (H4 : y mod 4 = 0 <-> e = 3)
    by (subst y; Z.to_euclidean_division_equations; lia).
  assert (H100 : y mod 100 = 0 <-> (c = 24 /\ e = 3))
    by (subst y; Z.to_euclidean_division_equations; lia).
  assert (H400 : y mod 400 = 0 <-> (b = 3 /\ c = 24 /\ e = 3))
    by (subst y; Z.to_euclidean_division_equations; lia).
  destruct (Z.eqb_spec (y mod 4) 0), (Z.eqb_spec (y mod 100) 0),
    (Z.eqb_spec (y mod 400) 0), (Z.eqb_spec e 3), (Z.eqb_spec c 24),
    (Z.eqb_spec b 3); simpl; try reflexivity; exfalso; tauto.
Qed.

Lemma days_before_year_parts (a b c e : Z) :
  0 <= a -> 0 <= b <= 3 -> 0 <= c <= 24 -> 0 <= e <= 3 ->
  days_before_year (a * 400 + 1 + b * 100 + c * 4 + e)
  = 146097 * a + 36524 * b + 1461 * c + 365 * e.
Proof.
  intros Ha Hb Hc He. unfold days_before_year. cbv zeta.
  Z.to_euclidean_division_equations. lia.
Qed.

Lemma fromordinal_spec (o : Z) :
  1 <= o ->
  toordinal (fromordinal o) = o
  /\ 1 <= year (fromordinal o)
  /\ 1 <= month (fromordinal o) <= 12
  /\ 1 <= day (fromordinal o)
          <= days_in_month (year (fromordinal o)) (month (fromordinal o))
  /\ (o <= MAXORDINAL -> year (fromordinal o) <= 9999).
Proof.
  intro Ho. unfold fromordinal, MAXORDINAL.
  destruct (ord2ymd_parts o Ho)
    as [a [b [c [e [r [Hn [Ha [Hb [Hc [He [Hr [Hb4 [He4 [H4 [H100 ->]]]]]]]]]]]]]]].
  cbv zeta.
  destruct ((e =? 4) || (b =? 4)) eqn:Elast.
  - (* the last day of a leap year *)
    assert (Hleap : is_leap (a * 400 + 1 + b * 100 + c * 4 + e - 1) = true).
    { unfold is_leap. apply orb_true_iff in Elast.
      rewrite !Z.eqb_eq in Elast.
      set (y := a * 400 + 1 + b * 100 + c * 4 + e - 1).
      assert (y mod 4 = 0)
        by (subst y; Z.to_euclidean_division_equations; lia).
      assert (y mod 100 <> 0 \/ y mod 400 = 0)
        by (subst y; Z.to_euclidean_division_equations; lia).
      destruct (Z.eqb_spec (y mod 4) 0), (Z.eqb_spec (y mod 100) 0),
        (Z.eqb_spec (y mod 400) 0); simpl; try reflexivity; exfalso; tauto. }
    apply orb_true_iff in Elast. rewrite !Z.eqb_eq in Elast.
    unfold toordinal, ymd2ord, days_before_month, days_in_month. simpl.
    rewrite Hleap. simpl.
    unfold days_before_year. cbv zeta.
    repeat split; try (Z.to_euclidean_division_equations; lia).
    vm_compute. discriminate.
  - apply orb_false_iff in Elast. rewrite !Z.eqb_neq in Elast.
    assert (Hb3 : 0 <= b <= 3) by lia. assert (He3 : 0 <= e <= 3) by lia.
    pose proof (is_leap_parts a b c e Ha Hb3 Hc He3) as Hleap.
    pose proof (days_before_year_parts a b c e Ha Hb3 Hc He3) as Hdby.
    pose proof (month_day_table r
                  ((e =? 3) && (negb (c =? 24) || (b =? 3))) Hr) as Htab.
    cbv zeta in Htab.
    set (L := (e =? 3) && (negb (c =? 24) || (b =? 3))) in *.
    set (m := fst (month_day r L)) in *.
    set (dd := snd (month_day r L)) in *.
    unfold toordinal, ymd2ord, days_before_month, days_in_month. simpl.
    rewrite Hleap, Hdby.
    repeat split; try lia.
Qed.


Lemma days_before_year_step (y y' : Z) :
  1 <= y -> y + 1 <= y' -> days_before_year y + 365 <= days_before_year y'.
Proof.
  intros Hy Hlt. unfold days_before_year. cbv zeta.
  Z.to_euclidean_division_equations. lia.
Qed.

Lemma weekday_fromordinal (o : Z) :
  1 <= o -> weekday (fromordinal o) = (o + 6) mod 7.
Proof.
  intro Ho. unfold weekday.
  now destruct (fromordinal_spec o Ho) as [-> _].
Qed.

Lemma fromordinal_valid (o : Z) :
  1 <= o <= MAXORDINAL -> valid (fromordinal o) = true.
Proof.
  intros [Ho Hmax].
  destruct (fromordinal_spec o Ho) as [_ [Hy [Hm [Hd Hy']]]].
  specialize (Hy' Hmax). unfold valid.
  rewrite !andb_true_iff, !Z.leb_le. lia.
Qed.

Lemma column_name_parts (d d' : date) :
  column_name d = column_name d' ->
  weekday d = weekday d'
  /\ strftime_d d = strftime_d d' /\ strftime_b d = strftime_b d'.
Proof.
  unfold column_name, strftime_d_b, strftime_A. intro H.
  remember (strftime_d d) as s eqn:Es. remember (strftime_d d') as s' eqn:Es'.
  unfold strftime_d in Es, Es'.
  remember (strftime_b d) as m. remember (strftime_b d') as m'.
  subst s s'.
  remember (digit (day d / 10)) as c1.
  remember (digit (day d' / 10)) as c1'.
  remember (digit (day d mod 10)) as c2.
  remember (digit (day d' mod 10)) as c2'.
  destruct (weekday_cases d) as [E|[E|[E|[E|[E|[E|E]]]]]];
    destruct (weekday_cases d') as [E'|[E'|[E'|[E'|[E'|[E'|E']]]]]];
    rewrite E, E' in *; cbn in H;
    first [ discriminate H
          | injection H; intros; repeat split; congruence ].
Qed.

Lemma strftime_d_inj (d d' : date) :
  1 <= day d <= 31 -> 1 <= day d' <= 31 ->
  strftime_d d = strftime_d d' -> day d = day d'.
Proof.
  intros Hd Hd'. unfold strftime_d. intro H. injection H as H1 H2.
  apply digit_inj in H1, H2; Z.to_euclidean_division_equations; lia.
Qed.

Lemma strftime_b_inj (d d' : date) :
  1 <= month d <= 12 -> 1 <= month d' <= 12 ->
  strftime_b d = strftime_b d' -> month d = month d'.
Proof.
  intros Hm Hm'. unfold strftime_b.
  assert (C : forall m, 1 <= m <= 12 ->
            m = 1 \/ m = 2 \/ m = 3 \/ m = 4 \/ m = 5 \/ m = 6 \/ m = 7
            \/ m = 8 \/ m = 9 \/ m = 10 \/ m = 11 \/ m = 12) by (intros; lia).
  destruct (C _ Hm) as [E|[E|[E|[E|[E|[E|[E|[E|[E|[E|[E|E]]]]]]]]]]];
    destruct (C _ Hm') as [E'|[E'|[E'|[E'|[E'|[E'|[E'|[E'|[E'|[E'|[E'|E']]]]]]]]]]];
    rewrite E, E'; cbn; intro H; first [ reflexivity | discriminate H ].
Qed.

Lemma days_before_month_leap_bounds (y m : Z) :
  tbl DAYS_BEFORE_MONTH m <= days_before_month y m
  <= tbl DAYS_BEFORE_MONTH m + 1.
Proof.
  unfold days_before_month. destruct ((2 <? m) && is_leap y); lia.
Qed.

Lemma days_in_month_le_31 (y m : Z) : days_in_month y m <= 31.
Proof.
  unfold days_in_month. destruct ((m =? 2) && is_leap y); [lia|].
  unfold tbl. generalize (Z.to_nat m) as k. intro k.
  do 13 (destruct k as [|k]; [vm_compute; discriminate|]).
  rewrite nth_overflow by (simpl; lia). lia.
Qed.

(** Two dates of different years with the same month and day are at least
    364 days apart. *)
Lemma same_month_day_apart (d1 d2 : date) :
  1 <= year d1 -> 1 <= year d2 ->
  month d1 = month d2 -> day d1 = day d2 ->
  toordinal d1 < toordinal d2 ->
  364 <= toordinal d2 - toordinal d1.
Proof.
  intros Hy1 Hy2 Hm Hd Hlt. unfold toordinal, ymd2ord in *.
  rewrite Hd, Hm in *.
  pose proof (days_before_month_leap_bounds (year d1) (month d2)).
  pose proof (days_before_month_leap_bounds (year d2) (month d2)).
  destruct (Z.lt_trichotomy (year d1) (year d2)) as [Hlt'|[Heq|Hgt]].
  - pose proof (days_before_year_step (year d1) (year d2)). lia.
  - rewrite Heq in Hlt. lia.
  - pose proof (days_before_year_step (year d2) (year d1)). lia.
Qed.

(** Two days less than 364 days apart have different column names. *)
Lemma column_name_distinct (o i j : Z) :
  1 <= o -> 0 <= i < j -> j - i < 364 ->
  column_name (fromordinal (o + i)) <> column_name (fromordinal (o + j)).
Proof.
  intros Ho Hij Hwin H.
  destruct (fromordinal_spec (o + i) ltac:(lia)) as [Ho1 [Hy1 [Hm1 [Hd1 _]]]].
  destruct (fromordinal_spec (o + j) ltac:(lia)) as [Ho2 [Hy2 [Hm2 [Hd2 _]]]].
  apply column_name_parts in H. destruct H as [_ [Hd Hm]].
  revert Ho1 Hy1 Hm1 Hd1 Ho2 Hy2 Hm2 Hd2 Hd Hm.
  generalize (fromordinal (o + i)) as d1.
  generalize (fromordinal (o + j)) as d2.
  intros d2 d1 Ho1 Hy1 Hm1 Hd1 Ho2 Hy2 Hm2 Hd2 Hd Hm.
  pose proof (days_in_month_le_31 (year d1) (month d1)).
  pose proof (days_in_month_le_31 (year d2) (month d2)).
  apply strftime_d_inj in Hd; [|lia|lia].
  apply strftime_b_inj in Hm; [|lia|lia].
  pose proof (same_month_day_apart d1 d2 Hy1 Hy2 Hm Hd). lia.
Qed.

(** ** The roster in closed form *)

Lemma row_set_row_set (cols r : list cell) (label v v' : cell) :
  row_set cols (row_set cols r label v) label v' = row_set cols r label v'.
Proof.
  revert r. induction cols as [|c cols IH]; intros [|x r]; simpl; auto.
  rewrite IH. now destruct (cell_eqb c label).
Qed.

Lemma row_set_snoc (cols r : list cell) (label x v : cell) :
  List.length r = List.length cols ->
  existsb (cell_eqb label) cols = false ->
  row_set (cols ++ [label]) (r ++ [x]) label v = (r ++ [v])%list.
Proof.
  revert r. induction cols as [|c cols IH]; intros [|y r]; simpl;
    try discriminate.
  - intros _ _. now rewrite cell_eqb_refl.
  - intros Hlen Hex. injection Hlen as Hlen.
    rewrite (cell_eqb_sym label c) in Hex.
    destruct (cell_eqb c label); [discriminate|].
    simpl in Hex. now rewrite IH.
Qed.

Lemma for_each_row_columns (idxs : list nat) (label : cell) (f : nat -> cell)
    (df : DataFrame) :
  columns (for_each_row idxs label f df) = columns df.
Proof.
  unfold for_each_row. revert df.
  induction idxs as [|j idxs IH]; intro df; simpl; auto. now rewrite IH.
Qed.

Lemma for_each_row_nth_error (idxs : list nat) (label : cell)
    (f : nat -> cell) (df : DataFrame) (i : nat) :
  nth_error (rows (for_each_row idxs label f df)) i
  = if existsb (Nat.eqb i) idxs
    then option_map (fun r => row_set (columns df) r label (f i))
                    (nth_error (rows df) i)
    else nth_error (rows df) i.
Proof.
  unfold for_each_row. revert df.
  induction idxs as [|j idxs IH]; intro df; simpl; auto.
  rewrite IH. cbn [at_set columns rows]. rewrite nth_error_update_nth.
  destruct (i =? j)%nat eqn:E; simpl; [|reflexivity].
  apply Nat.eqb_eq in E. subst j.
  destruct (existsb (Nat.eqb i) idxs), (nth_error (rows df) i); simpl;
    try reflexivity.
  now rewrite row_set_row_set.
Qed.

Lemma fill_day_new_column (df : DataFrame) (d : date) :
  rectangular df = true ->
  has_column df (CStr (column_name d)) = false ->
  columns (fill_day df d) = (columns df ++ [CStr (column_name d)])%list
  /\ forall idx r,
       nth_error (rows df) idx = Some r ->
       nth_error (rows (fill_day df d)) idx
       = Some (r ++ [CStr (shift_label (Z.of_nat idx) d)])%list.
Proof.
  intros Hrect Habs.
  assert (Hset : setitem df (CStr (column_name d)) (CStr "")
                 = mkDF (columns df ++ [CStr (column_name d)])
                        (map (fun r => (r ++ [CStr ""])%list) (rows df)))
    by (unfold setitem; now rewrite Habs).
  unfold fill_day. cbv zeta. rewrite Hset.
  rewrite for_each_row_columns. cbn [columns].
  split; [reflexivity|]. intros idx r Hr.
  rewrite for_each_row_nth_error. unfold index. cbn [columns rows].
  rewrite length_map, existsb_seq by (apply nth_error_Some; congruence).
  rewrite nth_error_map, Hr. simpl. f_equal.
  apply row_set_snoc; [|exact Habs].
  apply rectangular_Forall in Hrect. rewrite Forall_forall in Hrect.
  apply Hrect. eapply nth_error_In; eauto.
Qed.

Lemma fill_days_new_columns (dates : list date) (df : DataFrame) :
  rectangular df = true ->
  NoDup (map column_name dates) ->
  (forall d, In d dates -> has_column df (CStr (column_name d)) = false) ->
  columns (fold_left fill_day dates df)
  = (columns df ++ map (fun d => CStr (column_name d)) dates)%list
  /\ forall idx r,
       nth_error (rows df) idx = Some r ->
       nth_error (rows (fold_left fill_day dates df)) idx
       = Some (r ++ map (fun d => CStr (shift_label (Z.of_nat idx) d)) dates)%list.
Proof.
  revert df. induction dates as [|d dates IH]; intros df Hrect Hnd Habs.
  - simpl. rewrite app_nil_r. split; [reflexivity|].
    intros idx r Hr. now rewrite app_nil_r.
  - simpl. simpl in Hnd. apply NoDup_cons_iff in Hnd. destruct Hnd as [Hd Hnd].
    destruct (fill_day_new_column df d Hrect (Habs d (or_introl eq_refl)))
      as [Hcols Hrows].
    destruct (IH (fill_day df d)) as [Hcols' Hrows'].
    + now apply fill_day_rectangular.
    + assumption.
    + intros d' Hd'. unfold has_column. rewrite Hcols, existsb_app.
      fold (has_column df (CStr (column_name d'))).
      rewrite (Habs d' (or_intror Hd')). simpl. rewrite orb_false_r.
      apply String.eqb_neq. intro E. apply Hd.
      rewrite <- E. now apply in_map.
    + split.
      * rewrite Hcols', Hcols, <- app_assoc. reflexivity.
      * intros idx r Hr. rewrite (Hrows' idx _ (Hrows idx r Hr)).
        rewrite <- app_assoc. reflexivity.
Qed.

Lemma range_NoDup (n : Z) : NoDup (range n).
Proof.
  unfold range. apply NoDup_map_NoDup_ForallPairs; [|apply seq_NoDup].
  intros x y _ _ H. lia.
Qed.

Lemma horizon_names_NoDup (start_date : date) (num_days : Z) :
  valid start_date = true ->
  num_days <= 364 ->
  NoDup (map column_name (horizon start_date num_days)).
Proof.
  intros Hv Hn. apply toordinal_pos in Hv. unfold horizon. rewrite map_map.
  apply NoDup_map_NoDup_ForallPairs; [|apply range_NoDup].
  intros x y Hx Hy H. apply in_range in Hx, Hy.
  destruct (Z.lt_trichotomy x y) as [Hlt|[Heq|Hgt]]; [|assumption|].
  - exfalso. revert H. apply column_name_distinct; lia.
  - exfalso. symmetry in H. revert H. apply column_name_distinct; lia.
Qed.

Lemma generate_roster_horizon (employee_df : DataFrame) (start_date : date)
    (num_days : Z) :
  valid start_date = true ->
  in_calendar start_date num_days = true ->
  generate_roster employee_df start_date num_days
  = Ret (fold_left fill_day (horizon start_date num_days) employee_df).
Proof.
  intros Hv Hc. unfold generate_roster.
  now rewrite date_range_in_calendar.
Qed.

Lemma shift_label_off (idx : Z) (d : date) :
  String.eqb (shift_label idx d) WEEK_OFF
  = if idx mod 2 =? 0 then (weekday d =? 5) || (weekday d =? 6)
    else (weekday d =? 1) || (weekday d =? 2).
Proof.
  unfold shift_label, strftime_A, WEEK_OFF. cbv zeta.
  destruct (weekday_cases d) as [E|[E|[E|[E|[E|[E|E]]]]]]; rewrite E;
    destruct (idx mod 2 =? 0); cbn; destruct (day d mod 2 =? 0);
    reflexivity.
Qed.

Lemma in_horizon (start_date : date) (num_days i : Z) :
  0 <= i < num_days ->
  In (fromordinal (toordinal start_date + i)) (horizon start_date num_days).
Proof.
  intro Hi. unfold horizon. apply in_map_iff. exists i.
  split; [reflexivity|]. now apply in_range.
Qed.

Lemma roster_cell_shift_label (employee_df roster : DataFrame)
    (start_date : date) (num_days : Z) (idx : nat) (i : Z) :
  valid start_date = true ->
  rectangular employee_df = true ->
  in_calendar start_date num_days = true ->
  generate_roster employee_df start_date num_days = Ret roster ->
  (idx < List.length (rows employee_df))%nat ->
  0 <= i < num_days ->
  roster_cell roster start_date idx i
  = Some (CStr (shift_label (Z.of_nat idx)
                            (fromordinal (toordinal start_date + i)))).
Proof.
  intros Hv Hrect Hc Hgen Hidx Hi.
  rewrite generate_roster_horizon in Hgen by assumption.
  injection Hgen as <-. unfold roster_cell.
  apply fill_days_at_get; try assumption. now apply in_horizon.
Qed.

(** X12. In every seven consecutive days of a roster every row has exactly
    two week-off days. *)
Theorem two_week_offs_per_week (employee_df : DataFrame)
    (start_date : date) (num_days : Z) :
  valid start_date = true ->
  rectangular employee_df = true ->
  in_calendar start_date num_days = true ->
  exists roster,
    generate_roster employee_df start_date num_days = Ret roster
    /\ forall idx i,
         (idx < List.length (rows employee_df))%nat ->
         0 <= i -> i + 7 <= num_days ->
         List.length (week_offs_from roster start_date idx i) = 2%nat.
Proof.
  intros Hv Hrect Hc.
  exists (fold_left fill_day (horizon start_date num_days) employee_df).
  pose proof (generate_roster_horizon employee_df start_date num_days Hv Hc)
    as Hgen.
  split; [assumption|]. intros idx i Hidx Hi Hn.
  pose proof (toordinal_pos _ Hv) as Ho.
  unfold week_offs_from. rewrite filter_map_swap, length_map.
  set (u := (toordinal start_date + i + 6) mod 7).
  set (b := Z.of_nat idx mod 2 =? 0).
  rewrite (filter_ext_in _
             (fun k => if b then ((u + k) mod 7 =? 5) || ((u + k) mod 7 =? 6)
                       else ((u + k) mod 7 =? 1) || ((u + k) mod 7 =? 2))).
  - assert (Hu : 0 <= u < 7) by (apply Z.mod_pos_bound; lia).
    assert (Cu : u = 0 \/ u = 1 \/ u = 2 \/ u = 3 \/ u = 4 \/ u = 5 \/ u = 6)
      by lia.
    clearbody u b.
    destruct Cu as [->|[->|[->|[->|[->|[->| ->]]]]]]; destruct b;
      reflexivity.
  - intros k Hk. apply in_range in Hk.
    rewrite (roster_cell_shift_label employee_df _ start_date num_days)
      by (assumption || lia).
    cbn [is_week_off]. rewrite shift_label_off.
    rewrite weekday_fromordinal by lia. fold b.
    replace ((toordinal start_date + (i + k) + 6) mod 7) with ((u + k) mod 7);
      [reflexivity|].
    subst u. rewrite Zplus_mod_idemp_l. f_equal. lia.
Qed.

Lemma two_week_offs_per_week_witness :
  exists roster,
    generate_roster alice_bob (mkDate 2024 3 1) 30 = Ret roster
    /\ forall idx i,
         (idx < List.length (rows alice_bob))%nat ->
         0 <= i -> i + 7 <= 30 ->
         List.length (week_offs_from roster (mkDate 2024 3 1) idx i) = 2%nat.
Proof.
  apply (two_week_offs_per_week alice_bob (mkDate 2024 3 1) 30); reflexivity.
Defined.

(** ** Dates from ordinals and back *)

Lemma days_before_year_succ (y : Z) :
  1 <= y ->
  days_before_year (y + 1)
  = days_before_year y + 365 + (if is_leap y then 1 else 0).
Proof.
  intro Hy. unfold days_before_year, is_leap. cbv zeta.
  replace (y + 1 - 1) with y by lia.
  destruct (Z.eqb_spec (y mod 4) 0), (Z.eqb_spec (y mod 100) 0),
    (Z.eqb_spec (y mod 400) 0); simpl;
    Z.to_euclidean_division_equations; lia.
Qed.

Lemma days_before_year_mono (y y' : Z) :
  1 <= y -> y + 1 <= y' -> days_before_year (y + 1) <= days_before_year y'.
Proof.
  intros Hy Hle. destruct (Z.eq_dec (y + 1) y') as [<-|Hne]; [lia|].
  pose proof (days_before_year_step (y + 1) y'). lia.
Qed.

Lemma month_cases (m : Z) :
  1 <= m <= 12 ->
  m = 1 \/ m = 2 \/ m = 3 \/ m = 4 \/ m = 5 \/ m = 6 \/ m = 7
  \/ m = 8 \/ m = 9 \/ m = 10 \/ m = 11 \/ m = 12.
Proof. lia. Qed.

(** The months of a year follow each other. *)
Lemma days_before_month_succ (y m : Z) :
  1 <= m <= 11 ->
  days_before_month y (m + 1) = days_before_month y m + days_in_month y m.
Proof.
  intro Hm. unfold days_before_month, days_in_month.
  assert (C : 1 <= m <= 12) by lia. apply month_cases in C.
  destruct C as [E|[E|[E|[E|[E|[E|[E|[E|[E|[E|[E|E]]]]]]]]]]]; subst m;
    try lia; destruct (is_leap y); reflexivity.
Qed.

Lemma days_before_month_december (y : Z) :
  days_before_month y 12 + 31 = 365 + (if is_leap y then 1 else 0).
Proof. unfold days_before_month. destruct (is_leap y); reflexivity. Qed.

Lemma days_in_month_bounds (y m : Z) :
  1 <= m <= 12 -> 28 <= days_in_month y m <= 31.
Proof.
  intro Hm. unfold days_in_month. apply month_cases in Hm.
  destruct Hm as [E|[E|[E|[E|[E|[E|[E|[E|[E|[E|[E|E]]]]]]]]]]]; subst m;
    destruct (is_leap y); vm_compute; split; discriminate.
Qed.

Lemma days_before_month_mono (y m m' : Z) :
  1 <= m -> m < m' -> m' <= 12 ->
  days_before_month y m + days_in_month y m <= days_before_month y m'.
Proof.
  intros Hm Hlt Hm'.
  assert (Hind : forall k, 0 <= k -> m + 1 + k <= 12 ->
            days_before_month y m + days_in_month y m
            <= days_before_month y (m + 1 + k)).
  { intros k Hk. pattern k. apply natlike_ind; [| |assumption].
    - intros _. rewrite Z.add_0_r, days_before_month_succ by lia. lia.
    - intros x Hx IH Hle.
      replace (m + 1 + Z.succ x) with ((m + 1 + x) + 1) by lia.
      rewrite days_before_month_succ by lia.
      pose proof (days_in_month_bounds y (m + 1 + x)). lia. }
  specialize (Hind (m' - m - 1)).
  replace (m + 1 + (m' - m - 1)) with m' in Hind by lia. apply Hind; lia.
Qed.

(** The ordinal of a valid date lies in its year. *)
Lemma toordinal_in_year (d : date) :
  valid d = true ->
  days_before_year (year d) < toordinal d <= days_before_year (year d + 1).
Proof.
  unfold valid. rewrite !andb_true_iff, !Z.leb_le.
  intros [[[[[Hy1 Hy2] Hm1] Hm2] Hd1] Hd2].
  unfold toordinal, ymd2ord. rewrite days_before_year_succ by assumption.
  pose proof (days_before_month_nonneg (year d) (month d) ltac:(lia)).
  split; [lia|].
  destruct (Z.eq_dec (month d) 12) as [E|NE].
  - pose proof (days_before_month_december (year d)).
    rewrite E in *.
    assert (days_in_month (year d) 12 = 31)
      by (unfold days_in_month; reflexivity).
    lia.
  - pose proof (days_before_month_mono (year d) (month d) 12
                  ltac:(lia) ltac:(lia) ltac:(lia)).
    pose proof (days_before_month_december (year d)). lia.
Qed.

Lemma toordinal_inj (d1 d2 : date) :
  valid d1 = true -> valid d2 = true ->
  toordinal d1 = toordinal d2 -> d1 = d2.
Proof.
  intros Hv1 Hv2 Heq.
  pose proof (toordinal_in_year d1 Hv1) as B1.
  pose proof (toordinal_in_year d2 Hv2) as B2.
  unfold valid in Hv1, Hv2. rewrite !andb_true_iff, !Z.leb_le in Hv1, Hv2.
  destruct Hv1 as [[[[[Hy1 _] Hm1] Hm1'] Hd1] Hd1'].
  destruct Hv2 as [[[[[Hy2 _] Hm2] Hm2'] Hd2] Hd2'].
  assert (Hy : year d1 = year d2).
  { destruct (Z.lt_trichotomy (year d1) (year d2)) as [H|[H|H]];
      [|assumption|].
    - pose proof (days_before_year_mono (year d1) (year d2)). lia.
    - pose proof (days_before_year_mono (year d2) (year d1)). lia. }
  unfold toordinal, ymd2ord in Heq. rewrite Hy in *.
  assert (Hm : month d1 = month d2).
  { destruct (Z.lt_trichotomy (month d1) (month d2)) as [H|[H|H]];
      [|assumption|].
    - pose proof (days_before_month_mono (year d2) (month d1) (month d2)).
      lia.
    - pose proof (days_before_month_mono (year d2) (month d2) (month d1)).
      lia. }
  rewrite Hm in *. destruct d1, d2. cbn [year month day] in *.
  f_equal; lia.
Qed.

(** [date.fromordinal(d.toordinal()) == d] *)
Lemma fromordinal_toordinal (d : date) :
  valid d = true -> fromordinal (toordinal d) = d.
Proof.
  intro Hv. pose proof (toordinal_pos d Hv) as Hpos.
  pose proof (toordinal_in_year d Hv) as Hin.
  destruct (fromordinal_spec (toordinal d) ltac:(lia))
    as [Ho [Hy [Hm [Hd _]]]].
  apply toordinal_inj; try assumption.
  assert (Hyear : year (fromordinal (toordinal d)) = year d).
  { revert Ho Hy Hm Hd. generalize (fromordinal (toordinal d)) as d'.
    intros d' Ho Hy Hm Hd.
    assert (Hv' : valid (mkDate (year d') (month d') (day d')) = true
                  \/ 9999 < year d').
    { destruct (Z.le_gt_cases (year d') 9999); [left|right; lia].
      unfold valid. cbn [year month day].
      rewrite !andb_true_iff, !Z.leb_le. lia. }
    unfold valid in Hv. rewrite !andb_true_iff, !Z.leb_le in Hv.
    destruct (Z.lt_trichotomy (year d') (year d)) as [H|[H|H]];
      [|assumption|].
    - exfalso.
      assert (Hv'' : valid d' = true).
      { unfold valid. rewrite !andb_true_iff, !Z.leb_le. lia. }
      pose proof (toordinal_in_year d' Hv'').
      pose proof (days_before_year_mono (year d') (year d)). lia.
    - exfalso.
      pose proof (days_before_year_mono (year d) (year d')).
      unfold toordinal, ymd2ord in Ho, Hin.
      pose proof (days_before_month_nonneg (year d') (month d')). lia. }
  unfold valid in *. rewrite !andb_true_iff, !Z.leb_le in *. lia.
Qed.

(** ** The default start date *)

Lemma replace_day_first (d : date) :
  valid d = true -> replace_day d 1 = Ret (mkDate (year d) (month d) 1).
Proof.
  intro Hv. unfold replace_day. cbv zeta.
  replace (valid (mkDate (year d) (month d) 1)) with true; [reflexivity|].
  symmetry. unfold valid in *. cbn [year month day].
  rewrite !andb_true_iff, !Z.leb_le in *. lia.
Qed.

(** X14. The default start date is the first day of the month after the
    current one, for every current date but those of December 9999, where
    the thirty-two days added leave the calendar and the addition raises. *)
Theorem default_date_next_month (now : date) :
  valid now = true ->
  (year now <> 9999 \/ month now <> 12 ->
   default_date now = Ret (first_of_next_month now))
  /\ (year now = 9999 /\ month now = 12 ->
      default_date now = Raise OverflowError).
Proof.
  intro Hv. unfold default_date. rewrite (replace_day_first now Hv).
  cbn [bind]. split.
  - intro Hnot.
    set (first := mkDate (year now) (month now) 1).
    set (next := first_of_next_month now).
    set (c := mkDate (year next) (month next)
                     (33 - days_in_month (year now) (month now))).
    assert (Hb : 1 <= year now <= 9999 /\ 1 <= month now <= 12).
    { unfold valid in Hv. rewrite !andb_true_iff, !Z.leb_le in Hv. lia. }
    pose proof (days_in_month_bounds (year now) (month now) ltac:(lia)) as Hdim.
    assert (Hnext : (month now = 12 /\ year next = year now + 1
                     /\ month next = 1)
                    \/ (month now <> 12 /\ year next = year now
                        /\ month next = month now + 1)).
    { subst next. unfold first_of_next_month.
      destruct (Z.eqb_spec (month now) 12); cbn [year month]; lia. }
    assert (Hvc : valid c = true).
    { unfold valid. subst c. cbn [year month day].
      pose proof (days_in_month_bounds (year next) (month next)).
      rewrite !andb_true_iff, !Z.leb_le. lia. }
    assert (Hoc : toordinal c = toordinal first + 32).
    { unfold toordinal, ymd2ord. subst c first. cbn [year month day].
      destruct Hnext as [[E [-> ->]]|[NE [-> ->]]].
      - rewrite days_before_year_succ by lia.
        pose proof (days_before_month_december (year now)).
        rewrite E in *.
        assert (days_in_month (year now) 12 = 31) by reflexivity.
        assert (days_before_month (year now + 1) 1 = 0) by reflexivity.
        lia.
      - rewrite days_before_month_succ by lia. lia. }
    assert (Hmax : toordinal c <= MAXORDINAL).
    { pose proof (toordinal_in_year c Hvc) as Hin.
      assert (Hyn : year c <= 9999).
      { unfold valid in Hvc. rewrite !andb_true_iff, !Z.leb_le in Hvc. lia. }
      destruct (Z.eq_dec (year c) 9999) as [E|NE].
      - rewrite E in Hin. change (days_before_year (9999 + 1)) with MAXORDINAL in Hin.
        lia.
      - pose proof (days_before_year_mono (year c) 10000 ltac:(unfold valid in Hvc; rewrite !andb_true_iff, !Z.leb_le in Hvc; lia) ltac:(lia)).
        change (days_before_year 10000) with MAXORDINAL in H. lia. }
    unfold add_days. cbv zeta. rewrite <- Hoc.
    pose proof (toordinal_pos c Hvc).
    replace (0 <? toordinal c) with true by (symmetry; apply Z.ltb_lt; lia).
    replace (toordinal c <=? MAXORDINAL) with true
      by (symmetry; apply Z.leb_le; lia).
    cbn [andb bind]. rewrite (fromordinal_toordinal c Hvc).
    rewrite (replace_day_first c Hvc). subst c. cbn [year month].
    subst next. unfold first_of_next_month.
    destruct (month now =? 12); reflexivity.
  - intros [Hy Hm]. rewrite Hy, Hm. reflexivity.
Qed.

Lemma default_date_next_month_witness :
  (year (mkDate 2024 12 15) <> 9999 \/ month (mkDate 2024 12 15) <> 12 ->
   default_date (mkDate 2024 12 15)
   = Ret (first_of_next_month (mkDate 2024 12 15)))
  /\ (year (mkDate 2024 12 15) = 9999 /\ month (mkDate 2024 12 15) = 12 ->
      default_date (mkDate 2024 12 15) = Raise OverflowError).
Proof.
  apply (default_date_next_month (mkDate 2024 12 15)). reflexivity.
Defined.

(** ** Horizons *)

Lemma seq_shift_Z (n k m : nat) :
  map Z.of_nat (seq (n + k) m)
  = map (fun j => Z.of_nat n + j) (map Z.of_nat (seq k m)).
Proof.
  revert k. induction m as [|m IH]; intro k; simpl; [reflexivity|].
  f_equal; [lia|]. rewrite <- IH. f_equal. f_equal. lia.
Qed.

Lemma range_app (a b : Z) :
  0 <= a -> 0 <= b ->
  range (a + b) = (range a ++ map (fun j => a + j) (range b))%list.
Proof.
  intros Ha Hb. unfold range.
  rewrite Z2Nat.inj_add, seq_app, map_app by assumption. f_equal.
  replace (0 + Z.to_nat a)%nat with (Z.to_nat a + 0)%nat by lia.
  rewrite seq_shift_Z. apply map_ext. intro j. lia.
Qed.

Lemma horizon_app (start_date next : date) (a b : Z) :
  0 <= a -> 0 <= b ->
  toordinal next = toordinal start_date + a ->
  horizon start_date (a + b)
  = (horizon start_date a ++ horizon next b)%list.
Proof.
  intros Ha Hb Hnext. unfold horizon.
  rewrite range_app, map_app, map_map by assumption. f_equal.
  apply map_ext. intro j. rewrite Hnext. f_equal. lia.
Qed.

(** X13. A roster of [a + b] days is the roster of the first [a] days
    carried on for [b] days from the date [a] days after the start. *)
Theorem generate_roster_split (employee_df : DataFrame) (start_date : date)
    (a b : Z) :
  valid start_date = true ->
  0 <= a -> 0 < b ->
  in_calendar start_date (a + b) = true ->
  exists mid next roster,
    generate_roster employee_df start_date a = Ret mid
    /\ add_days start_date a = Ret next
    /\ generate_roster mid next b = Ret roster
    /\ generate_roster employee_df start_date (a + b) = Ret roster.
Proof.
  intros Hv Ha Hb Hc.
  pose proof (toordinal_pos _ Hv) as Ho.
  assert (Hmax : toordinal start_date + a + b - 1 <= MAXORDINAL).
  { unfold in_calendar in Hc. rewrite orb_true_iff, !Z.leb_le in Hc. lia. }
  assert (Hca : in_calendar start_date a = true).
  { unfold in_calendar. rewrite orb_true_iff, !Z.leb_le. lia. }
  set (next := fromordinal (toordinal start_date + a)).
  destruct (fromordinal_spec (toordinal start_date + a) ltac:(lia))
    as [Hon _].
  fold next in Hon.
  assert (Hvn : valid next = true) by (apply fromordinal_valid; lia).
  assert (Hcb : in_calendar next b = true).
  { unfold in_calendar. rewrite orb_true_iff, !Z.leb_le. lia. }
  exists (fold_left fill_day (horizon start_date a) employee_df), next,
    (fold_left fill_day (horizon start_date (a + b)) employee_df).
  split; [now apply generate_roster_horizon|]. split.
  - apply (add_days_in_calendar start_date (a + b)); [assumption..|lia].
  - split; [|now apply generate_roster_horizon].
    rewrite generate_roster_horizon by assumption.
    rewrite (horizon_app start_date next) by (assumption || lia).
    now rewrite fold_left_app.
Qed.

Lemma generate_roster_split_witness :
  exists mid next roster,
    generate_roster alice_bob (mkDate 2024 3 1) 15 = Ret mid
    /\ add_days (mkDate 2024 3 1) 15 = Ret next
    /\ generate_roster mid next 15 = Ret roster
    /\ generate_roster alice_bob (mkDate 2024 3 1) (15 + 15) = Ret roster.
Proof.
  apply (generate_roster_split alice_bob (mkDate 2024 3 1) 15 15);
    (reflexivity || lia).
Defined.

(** ** The main logic *)

Lemma cleaned_invariants (df out : DataFrame) :
  clean_employee_data df = Ret (Cleaned out) ->
  rectangular out = true /\ forallb keep_column (columns out) = true.
Proof.
  intro H. apply clean_employee_data_inv in H.
  destruct H as [df1 [dfc [_ [Hproj [Hrect H]]]]].
  apply finish_Cleaned in H; [|assumption]. destruct H as [_ [_ ->]].
  split.
  - apply filter_rectangular. apply with_department_rectangular in Hrect.
    now destruct (with_department dfc).
  - cbn [columns]. apply project_columns_known in Hproj.
    apply forallb_forall. rewrite Forall_forall in Hproj.
    unfold with_department, setitem.
    destruct (has_column dfc (CStr "Department")); cbn [negb columns];
      [exact Hproj|].
    intros c Hc. apply in_app_or in Hc. destruct Hc as [Hc|[<-|[]]];
      [now apply Hproj|reflexivity].
Qed.

Lemma generate_roster_closed (employee_df : DataFrame) (start_date : date)
    (num_days : Z) :
  valid start_date = true ->
  rectangular employee_df = true ->
  forallb keep_column (columns employee_df) = true ->
  in_calendar start_date num_days = true ->
  num_days <= 364 ->
  let roster := fold_left fill_day (horizon start_date num_days) employee_df in
  generate_roster employee_df start_date num_days = Ret roster
  /\ columns roster
     = (columns employee_df
        ++ map (fun d => CStr (column_name d))
               (horizon start_date num_days))%list
  /\ forall idx r,
       nth_error (rows employee_df) idx = Some r ->
       nth_error (rows roster) idx
       = Some (r ++ map (fun d => CStr (shift_label (Z.of_nat idx) d))
                        (horizon start_date num_days))%list.
Proof.
  intros Hv Hrect Hkept Hc Hn roster.
  split; [now apply generate_roster_horizon|].
  apply fill_days_new_columns; try assumption.
  - now apply horizon_names_NoDup.
  - intros d _. unfold has_column.
    destruct (existsb _ _) eqn:E; [|reflexivity].
    apply existsb_exists in E. destruct E as [c [Hc' E]].
    apply cell_eqb_eq in E. subst c.
    rewrite forallb_forall in Hkept. specialize (Hkept _ Hc').
    now rewrite column_name_not_kept in Hkept.
Qed.

(** X11. For an employee frame as the normalizer returns it (rectangular,
    every label a kept one) and a horizon of at most 364 days inside the
    calendar, the roster is the employee frame with one new column per day,
    in date order, named after the day: row [idx] is the employee row
    followed by its shift labels. *)
Theorem roster_closed_form (employee_df : DataFrame) (start_date : date)
    (num_days : Z) :
  valid start_date = true ->
  rectangular employee_df = true ->
  forallb keep_column (columns employee_df) = true ->
  in_calendar start_date num_days = true ->
  num_days <= 364 ->
  exists roster,
    generate_roster employee_df start_date num_days = Ret roster
    /\ columns roster
       = (columns employee_df
          ++ map (fun d => CStr (column_name d))
                 (horizon start_date num_days))%list
    /\ List.length (horizon start_date num_days) = Z.to_nat num_days
    /\ (0 < num_days ->
        exists later, horizon start_date num_days = start_date :: later)
    /\ List.length (rows roster) = List.length (rows employee_df)
    /\ forall idx r,
         nth_error (rows employee_df) idx = Some r ->
         nth_error (rows roster) idx
         = Some (r ++ map (fun d => CStr (shift_label (Z.of_nat idx) d))
                          (horizon start_date num_days))%list.
Proof.
  intros Hv Hrect Hkept Hc Hn.
  destruct (generate_roster_closed employee_df start_date num_days
              Hv Hrect Hkept Hc Hn) as [Hgen [Hcols Hrows]].
  eexists. split; [exact Hgen|]. split; [exact Hcols|]. split.
  - unfold horizon, range. now rewrite !length_map, length_seq.
  - split.
    + intro Hpos. unfold horizon, range.
      destruct (Z.to_nat num_days) as [|n] eqn:E; [lia|].
      cbn [seq map]. rewrite Z.add_0_r, fromordinal_toordinal by assumption.
      eexists. reflexivity.
    + split; [apply fill_days_nrows_any|exact Hrows].
Qed.

Lemma roster_closed_form_witness :
  exists roster,
    generate_roster alice_bob (mkDate 2024 3 1) 30 = Ret roster
    /\ columns roster
       = (columns alice_bob
          ++ map (fun d => CStr (column_name d))
                 (horizon (mkDate 2024 3 1) 30))%list
    /\ List.length (horizon (mkDate 2024 3 1) 30) = Z.to_nat 30
    /\ (0 < 30 ->
        exists later, horizon (mkDate 2024 3 1) 30 = mkDate 2024 3 1 :: later)
    /\ List.length (rows roster) = List.length (rows alice_bob)
    /\ forall idx r,
         nth_error (rows alice_bob) idx = Some r ->
         nth_error (rows roster) idx
         = Some (r ++ map (fun d => CStr (shift_label (Z.of_nat idx) d))
                          (horizon (mkDate 2024 3 1) 30))%list.
Proof.
  apply (roster_closed_form alice_bob (mkDate 2024 3 1) 30);
    (reflexivity || lia).
Defined.

(** X15. When the table cleans to a frame with at least one record and the
    thirty days from the start date are in the calendar, the page shows the
    cleaned frame and its roster: thirty date columns after the employee
    columns, every employee row followed by its thirty shift labels. *)
Theorem process_shows_roster (df_raw df_clean : DataFrame)
    (start_date : date) :
  valid start_date = true ->
  in_calendar start_date 30 = true ->
  clean_employee_data df_raw = Ret (Cleaned df_clean) ->
  (0 < List.length (rows df_clean))%nat ->
  exists roster,
    process df_raw start_date = ShowRoster df_clean roster
    /\ generate_roster df_clean start_date 30 = Ret roster
    /\ columns roster
       = (columns df_clean
          ++ map (fun d => CStr (column_name d)) (horizon start_date 30))%list
    /\ List.length (horizon start_date 30) = 30%nat
    /\ List.length (rows roster) = List.length (rows df_clean)
    /\ forall idx r,
         nth_error (rows df_clean) idx = Some r ->
         nth_error (rows roster) idx
         = Some (r ++ map (fun d => CStr (shift_label (Z.of_nat idx) d))
                          (horizon start_date 30))%list.
Proof.
  intros Hv Hc Hclean Hlen.
  destruct (cleaned_invariants _ _ Hclean) as [Hrect Hkept].
  destruct (generate_roster_closed df_clean start_date 30 Hv Hrect Hkept Hc
              ltac:(lia)) as [Hgen [Hcols Hrows]].
  eexists. split.
  - unfold process. rewrite Hclean.
    replace (0 <? List.length (rows df_clean))%nat with true
      by (symmetry; now apply Nat.ltb_lt).
    rewrite Hgen. reflexivity.
  - split; [exact Hgen|]. split; [exact Hcols|]. split.
    + unfold horizon, range. rewrite !length_map, length_seq. reflexivity.
    + split; [apply fill_days_nrows_any|exact Hrows].
Qed.

Lemma process_shows_roster_witness :
  exists roster,
    process banner_table (mkDate 2024 3 1)
    = ShowRoster (mkDF THREE_LABELS
                       [[CStr "E1"; CStr "Alice"; CStr "Inbound"];
                        [CNaN; CStr "Bob"; CStr "Inbound"]]) roster
    /\ generate_roster (mkDF THREE_LABELS
                             [[CStr "E1"; CStr "Alice"; CStr "Inbound"];
                              [CNaN; CStr "Bob"; CStr "Inbound"]])
                       (mkDate 2024 3 1) 30 = Ret roster
    /\ columns roster
       = (columns (mkDF THREE_LABELS
                        [[CStr "E1"; CStr "Alice"; CStr "Inbound"];
                         [CNaN; CStr "Bob"; CStr "Inbound"]])
          ++ map (fun d => CStr (column_name d))
                 (horizon (mkDate 2024 3 1) 30))%list
    /\ List.length (horizon (mkDate 2024 3 1) 30) = 30%nat
    /\ List.length (rows roster)
       = List.length (rows (mkDF THREE_LABELS
                                 [[CStr "E1"; CStr "Alice"; CStr "Inbound"];
                                  [CNaN; CStr "Bob"; CStr "Inbound"]]))
    /\ forall idx r,
         nth_error (rows (mkDF THREE_LABELS
                               [[CStr "E1"; CStr "Alice"; CStr "Inbound"];
                                [CNaN; CStr "Bob"; CStr "Inbound"]])) idx
         = Some r ->
         nth_error (rows roster) idx
         = Some (r ++ map (fun d => CStr (shift_label (Z.of_nat idx) d))
                          (horizon (mkDate 2024 3 1) 30))%list.
Proof.
  apply (process_shows_roster banner_table
           (mkDF THREE_LABELS
                 [[CStr "E1"; CStr "Alice"; CStr "Inbound"];
                  [CNaN; CStr "Bob"; CStr "Inbound"]])
           (mkDate 2024 3 1));
    (reflexivity || (simpl; lia)).
Defined.

(** ** The width of a column *)

Lemma max_length_fold (texts : list string) (acc : Z) :
  let step := fun max_length text =>
                if max_length <? Z.of_nat (String.length text)
                then Z.of_nat (String.length text) else max_length in
  acc <= fold_left step texts acc
  /\ (forall t, In t texts ->
      Z.of_nat (String.length t) <= fold_left step texts acc)
  /\ (fold_left step texts acc = acc
      \/ exists t, In t texts
                   /\ fold_left step texts acc = Z.of_nat (String.length t)).
Proof.
  cbv zeta. revert acc. induction texts as [|x texts IH]; intro acc; simpl.
  - split; [lia|]. split; [intros t []|now left].
  - set (acc' := if acc <? Z.of_nat (String.length x)
                 then Z.of_nat (String.length x) else acc).
    destruct (IH acc') as [Hge [Hall Hex]].
    assert (Hacc : acc <= acc' /\ Z.of_nat (String.length x) <= acc'
                   /\ (acc' = acc \/ acc' = Z.of_nat (String.length x))).
    { subst acc'. destruct (Z.ltb_spec acc (Z.of_nat (String.length x))); lia. }
    split; [lia|]. split.
    + intros t [<-|Ht]; [lia|now apply Hall].
    + destruct Hex as [E|[t [Ht E]]].
      * destruct Hacc as [_ [_ [E'|E']]]; [left; lia|].
        right. exists x. split; [now left|lia].
      * right. exists t. split; [now right|assumption].
Qed.

(** X16. The width [style_excel] gives a column is the length of its
    longest text plus two, capped at twenty: between two and twenty, wide
    enough for every text and its padding unless capped, and reached by
    one of the texts. *)
Theorem adjusted_width_fits (texts : list string) :
  2 <= adjusted_width texts <= 20
  /\ (forall t, In t texts ->
      Z.min (Z.of_nat (String.length t) + 2) 20 <= adjusted_width texts)
  /\ (texts = [] -> adjusted_width texts = 2)
  /\ (texts <> [] ->
      exists t, In t texts
                /\ adjusted_width texts
                   = Z.min (Z.of_nat (String.length t) + 2) 20).
Proof.
  unfold adjusted_width, max_length.
  destruct (max_length_fold texts 0) as [Hge [Hall Hex]]. cbv zeta in *.
  match goal with
  | |- context [fold_left ?f texts 0] =>
      remember (fold_left f texts 0) as M eqn:EM
  end.
  split; [lia|]. split; [|split].
  - intros t Ht. specialize (Hall t Ht). lia.
  - intros ->. simpl in EM. lia.
  - intro Hne. destruct Hex as [E|[t [Ht E]]].
    + destruct texts as [|x texts]; [contradiction|].
      exists x. split; [now left|].
      specialize (Hall x (or_introl eq_refl)). lia.
    + exists t. split; [assumption|]. now rewrite E.
Qed.

Lemma column_name_length (d : date) :
  1 <= month d <= 12 -> String.length (column_name d) = 10%nat.
Proof.
  intro Hm. unfold column_name, strftime_d_b, strftime_d, strftime_A,
    strftime_b.
  remember (digit (day d / 10)) as c1. remember (digit (day d mod 10)) as c2.
  apply month_cases in Hm.
  destruct (weekday_cases d) as [E|[E|[E|[E|[E|[E|E]]]]]]; rewrite E;
    destruct Hm as [M|[M|[M|[M|[M|[M|[M|[M|[M|[M|[M|M]]]]]]]]]]]; rewrite M;
    reflexivity.
Qed.

(** X17. A date column of the sheet, its header the column name of a valid
    date and its cells shift labels of that date, is twelve wide. *)
Theorem date_column_width (d : date) (idxs : list Z) :
  valid d = true ->
  adjusted_width (column_name d :: map (fun idx => shift_label idx d) idxs)
  = 12.
Proof.
  intro Hv. unfold valid in Hv. rewrite !andb_true_iff, !Z.leb_le in Hv.
  pose proof (column_name_length d ltac:(lia)) as Hname.
  unfold adjusted_width, max_length.
  destruct (max_length_fold
              (column_name d :: map (fun idx => shift_label idx d) idxs) 0)
    as [_ [Hall Hex]]. cbv zeta in *.
  match goal with
  | |- context [fold_left ?f ?l 0] => remember (fold_left f l 0) as M eqn:EM
  end.
  pose proof (Hall _ (or_introl eq_refl)) as Hlow. rewrite Hname in Hlow.
  assert (Hup : forall t,
             In t (column_name d :: map (fun idx => shift_label idx d) idxs) ->
             Z.of_nat (String.length t) <= 10).
  { intros t [<-|Ht]; [lia|].
    apply in_map_iff in Ht. destruct Ht as [idx [<- _]].
    destruct (shift_label_values idx d) as [E|[E|E]]; rewrite E; simpl; lia. }
  destruct Hex as [E|[t [Ht E]]]; [lia|].
  specialize (Hup t Ht). lia.
Qed.

Lemma date_column_width_witness :
  adjusted_width (column_name (mkDate 2024 3 1)
                  :: map (fun idx => shift_label idx (mkDate 2024 3 1)) [0; 1])
  = 12.
Proof.
  apply (date_column_width (mkDate 2024 3 1) [0; 1]). reflexivity.
Defined.

(** ** A title row above the header *)

(** X18. A title row costs nothing: a table whose first row is the header
    and whose second row is not cleans as the table with that header
    declared and the first row gone. *)
Theorem title_row_transparent (df : DataFrame) (r0 r1 : list cell)
    (rest : list (list cell)) :
  rows df = r0 :: r1 :: rest ->
  List.length r0 = List.length (columns df) ->
  first_row_is_header (string_row df) r0 = true ->
  first_row_is_header (string_row (mkDF r0 (r1 :: rest))) r1 = false ->
  clean_employee_data df = clean_employee_data (mkDF r0 (r1 :: rest)).
Proof.
  intros Hrows Hlen Hyes Hno. unfold clean_employee_data.
  assert (H1 : header_repair df = Ret (mkDF r0 (r1 :: rest))).
  { unfold header_repair, iloc0, set_columns. rewrite Hrows. cbn [bind].
    rewrite Hyes. cbn [columns rows tl]. now rewrite Hlen, Nat.eqb_refl. }
  assert (H2 : header_repair (mkDF r0 (r1 :: rest))
               = Ret (mkDF r0 (r1 :: rest))).
  { unfold header_repair, iloc0. cbn [rows bind]. now rewrite Hno. }
  now rewrite H1, H2.
Qed.

Lemma title_row_transparent_witness :
  clean_employee_data banner_table
  = clean_employee_data
      (mkDF [CStr "Employee ID"; CStr "NAME"]
            ([CStr "E1"; CStr "Alice"] :: [[CNaN; CNaN]; [CNaN; CStr "Bob"]])).
Proof.
  apply (title_row_transparent banner_table); reflexivity.
Defined.
